(** * InfiAgent data agent: the tool server and the conversation loop

    A shallow embedding of [mcp_server.py] (the stateful tool executor over one
    global data frame) and of [mcp_client.py] (the loop of [process_query]
    that alternates model calls and tool invocations, and the choice of the
    server command in [connect_to_server]), with the properties of both
    that the specification states and further ones the code shows.

    Conventions.
    - A Python [float] is an IEEE 754 binary64 value: Rocq's primitive
      [float], whose comparisons are false on NaN as Python's are.  What
      is proved of all floats rests on the library's specification of the
      primitive operations ([Floats]).
    - A function that may raise returns a [result]; the global [df] of the
      server is passed explicitly, before and after every tool.
    - A field of a table is a number or a text, as [pd.read_csv] gives
      them: a comparison or a quantile that meets a text may raise.
    - What lives outside the two files is a parameter: pandas (how a text
      compares with a float, the quantiles and the statistics of a
      column), the file system and the text the tool framework puts
      before the message of an exception are the [Variable]s of the
      server's [Section]s; the model endpoint, the MCP session,
      [json.loads] and the text of values in f-strings are the fields of
      the class [Client.Services].  Every theorem holds for all of them. *)

From Stdlib Require Import String Ascii List Bool Arith Lia PrimFloat Floats ZArith PArith.
Import ListNotations.
Open Scope string_scope.

(** ** Python values common to both programs *)

(** The exceptions the two programs can raise. *)
Inductive exn : Type :=
| AssertionError (msg : string)
| KeyError (key : string)
| TypeError (msg : string)
| FileNotFoundError (path : string)
| JSONDecodeError (doc : string)
| McpError (msg : string).

(** The outcome of a Python call: a returned value or a raised exception. *)
Inductive result (A : Type) : Type :=
| Return (a : A)
| Raise (e : exn).
Arguments Return {A} a.
Arguments Raise {A} e.

Definition returns {A : Type} (r : result A) : Prop := exists a, r = Return a.

(** The character [0x22], written by its bits (least significant first). *)
Definition dquote : ascii := Ascii false true false false false true false false.

(** [str.startswith] and [str.endswith]. *)
Definition startswith (s pre : string) : bool := String.prefix pre s.

Fixpoint endswith (s suf : string) : bool :=
  String.eqb s suf
  || match s with
     | EmptyString => false
     | String _ s' => endswith s' suf
     end.

(** Does a non-empty suffix of [b] begin [t]?  (Used to decide whether
    appending [t] to a name can complete the prefix [b].) *)
Fixpoint overlap (b t : string) : bool :=
  match b with
  | EmptyString => false
  | String _ b' => String.prefix b t || overlap b' t
  end.

(** * The tool server ([mcp_server.py]) *)

Module Server.

(** ** Path of a data set (lines 22-25 of [load_data]) *)

Definition csv : string := ".csv".
Definition tables_dir : string := "examples/DA-Agent/data/da-dev-tables/".

Definition resolve_path (file_name : string) : string :=
  let file_name :=
    if negb (endswith file_name csv) then file_name ++ csv else file_name in
  let file_name :=
    if negb (startswith file_name tables_dir) then tables_dir ++ file_name
    else file_name in
  file_name.

(** ** Data frames *)

(** A field of a table as [pd.read_csv] gives it: a number (NaN where the
    file has none; an integer compares with a float as the float it is) or
    a text. *)
Inductive field : Type :=
| Num (x : float)
| Str (s : string).

(** The field of a row that has none at some position. *)
Definition missing : field := Num nan.

(** The number a field holds (NaN for a text). *)
Definition number (f : field) : float :=
  match f with
  | Num x => x
  | Str _ => nan
  end.

Definition is_number (f : field) : bool :=
  match f with
  | Num _ => true
  | Str _ => false
  end.

(** A table under named columns, row by row. *)
Record DataFrame : Type := { columns : list string; rows : list (list field) }.

(** [df.shape[0]] *)
Definition shape0 (d : DataFrame) : nat := length (rows d).

(** [df.columns.get_loc]: the position of a column label. *)
Fixpoint get_loc (cols : list string) (name : string) : option nat :=
  match cols with
  | [] => None
  | c :: cols' =>
      if String.eqb c name then Some 0
      else option_map S (get_loc cols' name)
  end.

(** The field of row [r] under column [name] (missing without such a
    column). *)
Definition cell (d : DataFrame) (name : string) (r : list field) : field :=
  match get_loc (columns d) name with
  | Some i => nth i r missing
  | None => missing
  end.

(** [df[column_name]]: the series of a column, [KeyError] without it. *)
Definition getitem (d : DataFrame) (column_name : string) : result (list field) :=
  match get_loc (columns d) column_name with
  | Some i => Return (map (fun r => nth i r missing) (rows d))
  | None => Raise (KeyError column_name)
  end.

(** Every field of the column is a number. *)
Definition numeric_column (d : DataFrame) (name : string) : bool :=
  forallb (fun r => is_number (cell d name r)) (rows d).

(** [mask1 & mask2] *)
Fixpoint mask_and (m1 m2 : list bool) : list bool :=
  match m1, m2 with
  | b1 :: m1', b2 :: m2' => (b1 && b2) :: mask_and m1' m2'
  | _, _ => []
  end.

(** The rows a boolean mask selects. *)
Fixpoint select_rows {A : Type} (mask : list bool) (rs : list A) : list A :=
  match mask, rs with
  | b :: mask', r :: rs' =>
      if b then r :: select_rows mask' rs' else select_rows mask' rs'
  | _, _ => []
  end.

(** [df[mask]]: same columns, the selected rows. *)
Definition getitem_mask (d : DataFrame) (mask : list bool) : DataFrame :=
  {| columns := columns d; rows := select_rows mask (rows d) |}.

(** The frame of the rows of [d] on which [p] holds, in their order. *)
Definition kept (d : DataFrame) (p : list field -> bool) : DataFrame :=
  {| columns := columns d; rows := List.filter p (rows d) |}.

(** ** The five comparisons *)

(** The comparators of [filter], named as its docstring names them; the
    code applies [==], [<], [<=], [>] and [>=] for them. *)
Inductive comparator : Type := Equal | Less | LessEqual | Greater | GreaterEqual.

Definition comparator_name (c : comparator) : string :=
  match c with
  | Equal => "equal"
  | Less => "less"
  | LessEqual => "less/equal"
  | Greater => "greater"
  | GreaterEqual => "greater/equal"
  end.

(** Does the number [x] stand in relation [c] to [value]? *)
Definition satisfies (c : comparator) (x value : float) : bool :=
  match c with
  | Equal => PrimFloat.eqb x value
  | Less => PrimFloat.ltb x value
  | LessEqual => PrimFloat.leb x value
  | Greater => PrimFloat.ltb value x
  | GreaterEqual => PrimFloat.leb value x
  end.

Definition recognized (by_ : string) : Prop := exists c, by_ = comparator_name c.

(** The closed interval [[lo, hi]] of floats. *)
Definition within (lo hi x : float) : bool := PrimFloat.leb lo x && PrimFloat.leb x hi.

(** ** Results of the tools *)

Inductive information : Type :=
| data_size (n : nat)
| error_message (msg : string).

(** The dictionary [{'success': ..., 'information': {...}}]. *)
Record ToolDict : Type := { success : bool; info : information }.

Definition ok_size (d : DataFrame) : ToolDict :=
  {| success := true; info := data_size (shape0 d) |}.

Definition must_load : string := "Must execute `load_data` first.".

(** A tool: from the global [df] before the call to the outcome and the
    global [df] after it. *)
Definition tool (A : Type) : Type := option DataFrame -> result A * option DataFrame.

(** [assert df is not None, "Must execute `load_data` first."] followed by
    the rest of the body [k]. *)
Definition assert_loaded {A : Type} (k : DataFrame -> result A * option DataFrame)
  : tool A :=
  fun df =>
    match df with
    | None => (Raise (AssertionError must_load), df)
    | Some d => k d
    end.

(** A tool whose body has no [global df]: it cannot assign the frame, and
    the pandas methods it calls ([tolist], [describe], [value_counts],
    [mean], [std]) build a new value from the frame they read. *)
Definition read_only {A : Type} (k : DataFrame -> result A) : tool A :=
  assert_loaded (fun d => (k d, Some d)).

(** [f(x)] for an [x] whose computation may have raised. *)
Definition result_bind {A B : Type} (r : result A) (f : A -> result B) : result B :=
  match r with
  | Return a => f a
  | Raise e => Raise e
  end.

(** The message of the last branch of [filter]:
    [f"Unrecognized value for `by`: \"{by}\"."] *)
Definition unrecognized (by_ : string) : string :=
  "Unrecognized value for `by`: " ++ String dquote by_ ++ String dquote ".".

(** ** The tools *)
Section Tools.

(** pandas and the file system.  A method of pandas may raise: a
    comparison of a text with a float, a quantile, a mean or a deviation of
    a column that holds text. *)
Variable read_csv : string -> result DataFrame.
Variable compare_text : comparator -> string -> float -> result bool.
Variable quantile : list field -> float -> result float.
Variable describe : list field -> result (list (string * field)).
Variable value_counts : list field -> result (list (field * nat)).
Variable mean : list field -> result float.
Variable std : list field -> result float.

(** One entry of [series op value]: the comparison of floats for a number,
    pandas' answer for a text. *)
Definition compare_field (c : comparator) (f : field) (value : float) : result bool :=
  match f with
  | Num x => Return (satisfies c x value)
  | Str s => compare_text c s value
  end.

(** [series op value]: the mask, entry by entry, or the exception of the
    first entry whose comparison raises. *)
Fixpoint compare_series (c : comparator) (s : list field) (value : float)
  : result (list bool) :=
  match s with
  | [] => Return []
  | f :: s' =>
      match compare_field c f value with
      | Raise e => Raise e
      | Return b =>
          match compare_series c s' value with
          | Raise e => Raise e
          | Return mask => Return (b :: mask)
          end
      end
  end.

(** The entry of the mask for a field: false where the comparison
    raises (and no mask is made). *)
Definition passes (c : comparator) (value : float) (f : field) : bool :=
  match compare_field c f value with
  | Return b => b
  | Raise _ => false
  end.

Definition load_data (file_name : string) : tool ToolDict :=
  fun df =>
    match read_csv (resolve_path file_name) with
    | Return d => (Return (ok_size d), Some d)
    | Raise e => (Raise e, df)
    end.

Definition get_column_names : tool (list string) :=
  read_only (fun d => Return (columns d)).

Definition describe_column (column_name : string) : tool (list (string * field)) :=
  read_only (fun d => result_bind (getitem d column_name) describe).

Definition get_value_counts (column_name : string) : tool (list (field * nat)) :=
  read_only (fun d => result_bind (getitem d column_name) value_counts).

(** [df = df[df[column_name] op value]] and the common [return] of
    [filter] (lines 88-93); an exception leaves [df] as it was. *)
Definition keep_where (d : DataFrame) (column_name : string)
  (c : comparator) (value : float)
  : result ToolDict * option DataFrame :=
  match getitem d column_name with
  | Return s =>
      match compare_series c s value with
      | Return mask =>
          let d' := getitem_mask d mask in
          (Return (ok_size d'), Some d')
      | Raise e => (Raise e, Some d)
      end
  | Raise e => (Raise e, Some d)
  end.

Definition filter (column_name : string) (value : float) (by_ : string)
  : tool ToolDict :=
  assert_loaded (fun d =>
    if by_ =? "equal" then
      keep_where d column_name Equal value
    else if by_ =? "less" then
      keep_where d column_name Less value
    else if by_ =? "less/equal" then
      keep_where d column_name LessEqual value
    else if by_ =? "greater" then
      keep_where d column_name Greater value
    else if by_ =? "greater/equal" then
      keep_where d column_name GreaterEqual value
    else
      (Return {| success := false; info := error_message (unrecognized by_) |},
       Some d)).

(** In [lower <= df[column_name]] the series is on the right: each entry
    is tested for [>= lower]. *)
Definition remove_outliers (column_name : string) : tool ToolDict :=
  assert_loaded (fun d =>
    match getitem d column_name with
    | Raise e => (Raise e, Some d)
    | Return s =>
        match quantile s 0.25 with
        | Raise e => (Raise e, Some d)
        | Return q1 =>
            match quantile s 0.75 with
            | Raise e => (Raise e, Some d)
            | Return q3 =>
                let iqr := PrimFloat.sub q3 q1 in
                let lower := PrimFloat.sub q1 (PrimFloat.mul 1.5 iqr) in
                let upper := PrimFloat.add q3 (PrimFloat.mul 1.5 iqr) in
                match compare_series GreaterEqual s lower with
                | Raise e => (Raise e, Some d)
                | Return above =>
                    match compare_series LessEqual s upper with
                    | Raise e => (Raise e, Some d)
                    | Return below =>
                        let d' := getitem_mask d (mask_and above below) in
                        (Return (ok_size d'), Some d')
                    end
                end
            end
        end
    end).

Definition compute_mean (column_name : string) : tool float :=
  read_only (fun d => result_bind (getitem d column_name) mean).

Definition compute_standard_deviation (column_name : string) : tool float :=
  read_only (fun d => result_bind (getitem d column_name) std).

End Tools.

(** ** The tools as the session calls them *)

(** What a call of a tool registered with [@mcp.tool()] gives back over
    the session: the value the body returns, or, when the body raises, an
    error result ([isError = True]) whose text ends with the message of the
    exception.  No exception of a body leaves the server. *)
Inductive CallToolResult (A : Type) : Type :=
| ToolValue (value : A)
| ToolError (text : string).
Arguments ToolValue {A} value.
Arguments ToolError {A} text.

Section Registered.

(** What the framework writes before the message, for the tool of a given
    name, and the text of the exceptions of pandas and of the file
    system. *)
Variable error_prefix : string -> string.
Variable other_text : exn -> string.

(** [str(e)]: for an [AssertionError], the message of the [assert]. *)
Definition str_exn (e : exn) : string :=
  match e with
  | AssertionError msg => msg
  | _ => other_text e
  end.

Definition mcp_tool {A : Type} (tool_name : string) (body : tool A)
  : option DataFrame -> CallToolResult A * option DataFrame :=
  fun df =>
    match body df with
    | (Return a, df') => (ToolValue a, df')
    | (Raise e, df') => (ToolError (error_prefix tool_name ++ str_exn e), df')
    end.

End Registered.

(** ** Concrete inputs to run the tools on *)

(** Ages and fares of five passengers; one age is missing. *)
Definition passengers : DataFrame :=
  {| columns := ["age"; "fare"];
     rows := [ [Num 22; Num 7.25];
               [Num 38; Num 71.5];
               [Num 4; Num 16.5];
               [Num nan; Num 8.5];
               [Num 17; Num 512] ] |}.

(** Three passengers of whom no age is known. *)
Definition unknown_ages : DataFrame :=
  {| columns := ["age"; "fare"];
     rows := [ [Num nan; Num 7.25]; [Num nan; Num 71.5]; [Num nan; Num 16.5] ] |}.

(** Three passengers with their names; one name is missing. *)
Definition named : DataFrame :=
  {| columns := ["name"; "age"];
     rows := [ [Str "Allen"; Num 29]; [Num nan; Num 4]; [Str "Braund"; Num 22] ] |}.

(** Python's own comparison of a [str] with a [float]: never equal, and no
    order between them. *)
Definition python_compare_text (c : comparator) (s : string) (value : float)
  : result bool :=
  match c with
  | Equal => Return false
  | _ => Raise (TypeError "'<' not supported between instances of 'str' and 'float'")
  end.

(** One instance of the quantile of numbers, to run [remove_outliers]: NaN
    dropped, the rest sorted, and linear interpolation between the two
    order statistics around position [(n - 1) * q]. *)
Fixpoint insert_sorted (x : float) (l : list float) : list float :=
  match l with
  | [] => [x]
  | y :: l' => if PrimFloat.leb x y then x :: l else y :: insert_sorted x l'
  end.

Definition sort_values (l : list float) : list float :=
  fold_right insert_sorted [] l.

Fixpoint float_of_nat (n : nat) : float :=
  match n with
  | 0 => 0%float
  | S k => PrimFloat.add (float_of_nat k) 1%float
  end.

Fixpoint floor_upto (k : nat) (h : float) : nat :=
  match k with
  | 0 => 0
  | S k' => if PrimFloat.leb (float_of_nat k) h then k else floor_upto k' h
  end.

Definition linear_quantile (s : list float) (q : float) : float :=
  let a := sort_values (List.filter (fun x => PrimFloat.eqb x x) s) in
  match a with
  | [] => nan
  | _ =>
      let h := PrimFloat.mul (float_of_nat (length a - 1)) q in
      let i := floor_upto (length a - 1) h in
      let lo := nth i a nan in
      let hi := nth (Nat.min (S i) (length a - 1)) a nan in
      PrimFloat.add lo (PrimFloat.mul (PrimFloat.sub hi lo)
                                      (PrimFloat.sub h (float_of_nat i)))
  end.

(** One instance of [quantile]: that of the numbers, and [TypeError] for a
    series that holds a text. *)
Definition series_quantile (s : list field) (q : float) : result float :=
  if forallb is_number s then Return (linear_quantile (map number s) q)
  else Raise (TypeError "unsupported operand type(s) for -: 'str' and 'str'").

(** Instances of the statistics, for the tools that only read. *)
Definition no_description (s : list field) : result (list (string * field)) :=
  Return [].
Definition no_counts (s : list field) : result (list (field * nat)) :=
  Return [].
Definition no_statistic (s : list field) : result float := Return nan.

End Server.

(** * The conversation loop ([mcp_client.py]) *)
Module Client.

(** The character [0x0A]. *)
Definition newline : string :=
  String (Ascii false true false true false false false false) "".

(** [tool_call.function.name] and [tool_call.function.arguments]. *)
Record tool_call : Type := { name : string; arguments : string }.

(** [response.choices[0]]: the finish reason, [message.content] (a string
    when the model says stop) and [message.tool_calls]. *)
Record choice : Type := {
  finish_reason : string;
  message_content : string;
  tool_calls : list tool_call
}.

(** The content of a message: a string, or the content of a tool result. *)
Inductive content (payload : Type) : Type :=
| Text (s : string)
| Blocks (p : payload).
Arguments Text {payload} s.
Arguments Blocks {payload} p.

Record message (payload : Type) : Type := { role : string; body : content payload }.
Arguments role {payload} m.
Arguments body {payload} m.

(** What [process_query] calls and does not define. *)
Class Services : Type := {
  (** the dictionary [json.loads] gives, and its text in an f-string *)
  args : Type;
  json_loads : string -> result args;
  repr_args : args -> string;
  (** [result.content], and its text in an f-string *)
  payload : Type;
  repr_payload : payload -> string;
  (** the server behind [self.session], and [self.session.call_tool] *)
  session : Type;
  call_tool : string -> args -> session -> result payload * session;
  (** [self.client.chat.completions.create(messages=messages, ...)] and its
      first choice.  The deployment, the sampling parameters and the tool
      schemas are the same at every call of one query.  The history grows
      between any two calls, so a function of the history covers a model
      that answers each call as it likes. *)
  create : list (message payload) -> choice
}.

Section Loop.

Context {W : Services}.

(** The variables of [process_query], and three logs the code does not
    keep: the histories submitted to the model, the tool invocations made,
    and the lines printed. *)
Record state : Type := {
  messages : list (message payload);
  final_text : list string;
  response : choice;
  server : session;
  model_calls : list (list (message payload));
  invocations : list (string * args * payload);
  printed : list string
}.

Inductive outcome (A : Type) : Type :=
| Done (a : A)           (* the loop was left and the function returned *)
| Raised (e : exn)       (* an exception left the function *)
| Running (st : state).  (* the loop is still going after [fuel] rounds *)

(** [f"[Calling tool {tool_name} with args {tool_args}]"] *)
Definition calling (tool_name : string) (tool_args : args) : string :=
  "[Calling tool " ++ tool_name ++ " with args " ++ repr_args tool_args ++ "]".

(** [f"[Tool response: {result.content}]"] *)
Definition tool_response (p : payload) : string :=
  "[Tool response: " ++ repr_payload p ++ "]".

(** The two records lines 106-114 append. *)
Definition folded (tool_name : string) (tool_args : args) (p : payload)
  : list (message payload) :=
  [ {| role := "assistant"; body := Text (calling tool_name tool_args) |};
    {| role := "user"; body := Blocks p |} ].

(** The [for] loop of lines 97-124: the model is called after every tool
    call, and the loop goes on over the calls of the response it started
    from. *)
Fixpoint for_tool_calls (calls : list tool_call) (st : state) : result state :=
  match calls with
  | [] => Return st
  | tool_call :: calls' =>
      let tool_name := name tool_call in
      match json_loads (arguments tool_call) with
      | Raise e => Raise e
      | Return tool_args =>
          match call_tool tool_name tool_args (server st) with
          | (Raise e, _) => Raise e
          | (Return p, server') =>
              let messages' :=
                (messages st ++ folded tool_name tool_args p)%list in
              for_tool_calls calls'
                {| messages := messages';
                   final_text :=
                     (final_text st
                      ++ [calling tool_name tool_args; tool_response p])%list;
                   response := create messages';
                   server := server';
                   model_calls := (model_calls st ++ [messages'])%list;
                   invocations :=
                     (invocations st ++ [(tool_name, tool_args, p)])%list;
                   printed := printed st |}
          end
      end
  end.

(** [final_text.append(content.message.content)] *)
Definition append_final (st : state) : state :=
  {| messages := messages st;
     final_text := (final_text st ++ [message_content (response st)])%list;
     response := response st;
     server := server st;
     model_calls := model_calls st;
     invocations := invocations st;
     printed := printed st |}.

(** [print("Finish reason:", content.finish_reason)] *)
Definition print_finish (st : state) : state :=
  {| messages := messages st;
     final_text := final_text st;
     response := response st;
     server := server st;
     model_calls := model_calls st;
     invocations := invocations st;
     printed :=
       (printed st
        ++ [("Finish reason: " ++ finish_reason (response st))%string])%list |}.

(** The [while True] loop of lines 91-126, for at most [fuel] rounds. *)
Fixpoint while_true (fuel : nat) (st : state) : outcome state :=
  match fuel with
  | 0 => Running _ st
  | S fuel' =>
      let content := response st in
      if finish_reason content =? "stop" then
        Done _ (append_final st)
      else if finish_reason content =? "tool_calls" then
        match for_tool_calls (tool_calls content) st with
        | Return st' => while_true fuel' st'
        | Raise e => Raised _ e
        end
      else
        while_true fuel' (print_finish st)
  end.

(** The state at line 90. *)
Definition initial (query : string) (s : session) : state :=
  let messages := [ {| role := "user"; body := Text query |} ] in
  {| messages := messages;
     final_text := [];
     response := create messages;
     server := s;
     model_calls := [messages];
     invocations := [];
     printed := [] |}.

Definition process_query (fuel : nat) (query : string) (s : session)
  : outcome (string * state) :=
  match while_true fuel (initial query s) with
  | Done _ st => Done _ (String.concat newline (final_text st), st)
  | Raised _ e => Raised _ e
  | Running _ st => Running _ st
  end.



(** In the words of the specification, whose data model has the three
    roles user, assistant and tool-result: a record of the third role
    carries a role that is neither of the first two. *)
Definition tool_result_role (r : string) : Prop :=
  r <> "user" /\ r <> "assistant".

(** In the words of the specification: the history holds the assistant
    record of the call and, right after it, a tool-result record with the
    payload. *)
Definition call_then_tool_result (history : list (message payload))
  (tool_name : string) (tool_args : args) (p : payload) : Prop :=
  exists before m1 m2 after,
    history = (before ++ m1 :: m2 :: after)%list
    /\ role m1 = "assistant"
    /\ body m1 = Text (calling tool_name tool_args)
    /\ tool_result_role (role m2)
    /\ body m2 = Blocks p.

End Loop.

Arguments Done {W A} a.
Arguments Raised {W A} e.
Arguments Running {W A} st.

(** ** What the logs of a run say *)
Section LoopLog.

Context {W : Services}.

(** The history after the invocations [invs]: the query, then the two
    records of each invocation. *)
Definition history_of (query : string) (invs : list (string * args * payload))
  : list (message payload) :=
  {| role := "user"; body := Text query |}
  :: flat_map (fun i => let '(tool_name, tool_args, p) := i in
                        folded tool_name tool_args p) invs.

(** The invocations [invs], made one after the other on the server as the
    one before left it, each giving the payload logged, take the server
    from [s] to [s_end]. *)
Fixpoint replays (s : session) (invs : list (string * args * payload))
  (s_end : session) : Prop :=
  match invs with
  | [] => s = s_end
  | (tool_name, tool_args, p) :: invs' =>
      exists s', call_tool tool_name tool_args s = (Return p, s')
                 /\ replays s' invs' s_end
  end.

(** What the logs of a state say of a run on [query] that began with the
    server at [s]: the history is the query and the records of the
    invocations; the response at hand is the model's answer to that whole
    history; the model has been called once on the query and once after
    each invocation, each time on the history as it then was; and the
    invocations have taken the server from [s] to where it is. *)
Definition consistent (query : string) (s : session) (st : state) : Prop :=
  messages st = history_of query (invocations st)
  /\ response st = create (messages st)
  /\ model_calls st
     = map (fun k => history_of query (firstn k (invocations st)))
           (seq 0 (S (length (invocations st))))
  /\ replays s (invocations st) (server st).

End LoopLog.

(** ** Launching the server (lines 36-46 of [connect_to_server]) *)

(** [StdioServerParameters(command=command, args=[...], env=None)] *)
Record StdioServerParameters : Type := {
  command : string;
  command_args : list string
}.

(** What lines 36-46 come to: the parameters of the server process, or the
    [ValueError] raised before anything is opened. *)
Inductive launch : Type :=
| Launch (server_params : StdioServerParameters)
| ValueError (msg : string).

Definition server_parameters (server_script_path : string) : launch :=
  let is_python := endswith server_script_path ".py" in
  let is_js := endswith server_script_path ".js" in
  if negb (is_python || is_js) then
    ValueError "Server script must be a .py or .js file"
  else
    let command := if is_python then "python" else "node" in
    Launch {| command := command; command_args := [server_script_path] |}.

(** ** Concrete services to run the loop on *)

Definition load_titanic : tool_call :=
  {| name := "load_data"; arguments := "{'file_name': 'titanic'}" |}.

(** A model that asks for one tool call on the bare query and stops once
    the history has grown. *)
Definition one_call_model (history : list (message string)) : choice :=
  match history with
  | [_] => {| finish_reason := "tool_calls"; message_content := "";
              tool_calls := [load_titanic] |}
  | _ => {| finish_reason := "stop"; message_content := "891 rows.";
            tool_calls := [] |}
  end.

(** A model that asks for two tool calls in its first response. *)
Definition two_call_model (history : list (message string)) : choice :=
  match history with
  | [_] => {| finish_reason := "tool_calls"; message_content := "";
              tool_calls := [load_titanic;
                             {| name := "get_column_names"; arguments := "{}" |}] |}
  | _ => {| finish_reason := "stop"; message_content := "12 columns.";
            tool_calls := [] |}
  end.

(** A model whose answer is cut at [max_tokens]. *)
Definition truncated_model (history : list (message string)) : choice :=
  {| finish_reason := "length"; message_content := "The data"; tool_calls := [] |}.

(** Arguments and payloads are kept as text; the server counts its calls. *)
Definition echo (model : list (message string) -> choice) : Services :=
  {| args := string;
     json_loads := fun doc => Return doc;
     repr_args := fun a => a;
     payload := string;
     repr_payload := fun p => p;
     session := nat;
     call_tool := fun tool_name _ n => (Return ("called " ++ tool_name), S n);
     create := model |}.

(** A model that answers at once. *)
Definition stop_model (history : list (message string)) : choice :=
  {| finish_reason := "stop"; message_content := "Hello."; tool_calls := [] |}.

(** A model that says tool calls and lists none. *)
Definition no_call_model (history : list (message string)) : choice :=
  {| finish_reason := "tool_calls"; message_content := ""; tool_calls := [] |}.

(** Services whose [json.loads] takes objects only and whose one tool,
    "load_data", fails for every other name. *)
Definition strict (model : list (message string) -> choice) : Services :=
  {| args := string;
     json_loads := fun doc =>
       if startswith doc "{" then Return doc else Raise (JSONDecodeError doc);
     repr_args := fun a => a;
     payload := string;
     repr_payload := fun p => p;
     session := nat;
     call_tool := fun tool_name _ n =>
       if tool_name =? "load_data" then (Return "loaded", S n)
       else (Raise (McpError "unknown tool"), n);
     create := model |}.

(** A model whose tool call has arguments that are no JSON object. *)
Definition bad_json_model (history : list (message string)) : choice :=
  {| finish_reason := "tool_calls"; message_content := "";
     tool_calls := [ {| name := "load_data"; arguments := "titanic" |} ] |}.

End Client.

(** * Properties *)

(** ** Strings *)

Lemma startswith_spec s pre :
  startswith s pre = true <-> exists t, s = pre ++ t.
Proof.
  unfold startswith. revert s.
  induction pre as [|c pre IH]; intros s; simpl.
  - split; [intros _; now exists s | now destruct s].
  - destruct s as [|c' s]; simpl.
    + split; [discriminate | intros [t Ht]; discriminate].
    + destruct (ascii_dec c c') as [->|Hne].
      * rewrite IH. split; intros [t Ht]; exists t; congruence.
      * split; [discriminate | intros [t Ht]; congruence].
Qed.

Lemma endswith_spec s suf :
  endswith s suf = true <-> exists p, s = p ++ suf.
Proof.
  induction s as [|c s IH]; cbn [endswith].
  - rewrite orb_false_r, String.eqb_eq. split.
    + intros <-. now exists "".
    + intros [[|? ?] Hp]; simpl in Hp; [auto | discriminate].
  - rewrite orb_true_iff, String.eqb_eq, IH. split.
    + intros [<- | [p ->]]; [now exists "" | now exists (String c p)].
    + intros [[|c' p] Hp]; simpl in Hp; [now left | right].
      injection Hp as _ ->. now exists p.
Qed.

Lemma prefix_app_l b s t : String.prefix b s = true -> String.prefix b (s ++ t) = true.
Proof.
  revert s. induction b as [|c b IH]; intros s H.
  - now destruct (s ++ t).
  - destruct s as [|c' s]; simpl in *; [discriminate|].
    destruct (ascii_dec c c'); [now apply IH | discriminate].
Qed.

Lemma prefix_app_inv b s t :
  String.prefix b (s ++ t) = true -> String.prefix b s = true \/ overlap b t = true.
Proof.
  revert s. induction b as [|c b IH]; intros s H; [left; now destruct s|].
  destruct s as [|c' s].
  - right. simpl in *. now rewrite H.
  - simpl in *. destruct (ascii_dec c c') as [_|]; [|discriminate].
    destruct (IH _ H) as [Hp | Ho]; [now left | right].
    rewrite Ho. apply orb_true_r.
Qed.

Lemma append_nil_r (s : string) : s ++ "" = s.
Proof. induction s as [|c s IH]; simpl; [reflexivity | now rewrite IH]. Qed.

(** No name that lacks the directory of the tables gains it by the
    extension: the directory ends in a slash, the extension has none. *)
Lemma startswith_after_csv (file_name : string) :
  startswith (file_name ++ Server.csv) Server.tables_dir
  = startswith file_name Server.tables_dir.
Proof.
  unfold startswith.
  destruct (String.prefix Server.tables_dir file_name) eqn:Ep.
  - now apply prefix_app_l.
  - destruct (String.prefix Server.tables_dir (file_name ++ Server.csv)) eqn:Eq;
      [|reflexivity].
    apply prefix_app_inv in Eq. destruct Eq as [Eq|Eq]; [congruence|].
    vm_compute in Eq. discriminate.
Qed.

(** ** More on strings *)

Lemma append_assoc_string (a b c : string) : (a ++ b) ++ c = a ++ (b ++ c).
Proof. induction a as [|x a IH]; simpl; [reflexivity | now rewrite IH]. Qed.

Lemma startswith_app (pre t : string) : startswith (pre ++ t) pre = true.
Proof. apply startswith_spec. now exists t. Qed.

Lemma endswith_app (s suf : string) : endswith (s ++ suf) suf = true.
Proof. apply endswith_spec. now exists s. Qed.

Lemma endswith_prepend (p s suf : string) :
  endswith s suf = true -> endswith (p ++ s) suf = true.
Proof.
  rewrite !endswith_spec. intros [t ->]. exists (p ++ t).
  symmetry. apply append_assoc_string.
Qed.

Lemma endswith_length (s suf : string) :
  endswith s suf = true -> String.length suf <= String.length s.
Proof.
  induction s as [|c s IH]; cbn [endswith]; rewrite orb_true_iff, String.eqb_eq.
  - intros [<- | H]; [auto | discriminate].
  - intros [<- | H]; [auto|]. simpl. apply IH in H. lia.
Qed.

(** A string has one suffix of each length. *)
Lemma endswith_same_length (s a b : string) :
  endswith s a = true -> endswith s b = true ->
  String.length a = String.length b -> a = b.
Proof.
  induction s as [|c s IH]; cbn [endswith];
    rewrite !orb_true_iff, !String.eqb_eq; intros Ha Hb Hl.
  - destruct Ha as [<- | Ha], Hb as [<- | Hb]; try discriminate. reflexivity.
  - destruct Ha as [<- | Ha], Hb as [<- | Hb]; try reflexivity.
    + apply endswith_length in Hb. simpl in Hl. lia.
    + apply endswith_length in Ha. simpl in Hl. lia.
    + now apply IH.
Qed.

(** ** Comparisons of binary64 values *)

Lemma SFcompare_antisym (x y : spec_float) :
  SFcompare y x = option_map CompOpp (SFcompare x y).
Proof.
  destruct x as [sx|sx| |sx mx ex], y as [sy|sy| |sy my ey]; simpl;
    try reflexivity;
    try (destruct sx; reflexivity); try (destruct sy; reflexivity);
    try (destruct sx, sy; reflexivity).
  assert (Hm : Pos.compare_cont Eq my mx = CompOpp (Pos.compare_cont Eq mx my))
    by (symmetry; apply (Pos.compare_cont_antisym mx my Eq)).
  destruct sx, sy; simpl; try reflexivity;
    rewrite (Z.compare_antisym ex ey), Hm;
    destruct (ex ?= ey)%Z; simpl; try reflexivity;
    now destruct (Pos.compare_cont Eq mx my).
Qed.

Lemma SFcompare_refl (x : spec_float) :
  x <> S754_nan -> SFcompare x x = Some Eq.
Proof.
  destruct x as [s|s| |s m e]; simpl; intros H; try reflexivity.
  - now destruct s.
  - contradiction.
  - rewrite Z.compare_refl, Pos.compare_cont_refl. now destruct s.
Qed.

Lemma SFcompare_some (x y : spec_float) :
  x <> S754_nan -> y <> S754_nan -> exists c, SFcompare x y = Some c.
Proof.
  destruct x as [sx|sx| |sx mx ex], y as [sy|sy| |sy my ey]; simpl; intros Hx Hy;
    try contradiction; eauto.
Qed.

Lemma SFcompare_defined (x y : spec_float) c :
  SFcompare x y = Some c -> x <> S754_nan /\ y <> S754_nan.
Proof.
  destruct x, y; simpl; intros H; try discriminate; split; discriminate.
Qed.

(** [math.isnan] in terms of the value a float stands for. *)
Lemma is_nan_spec (x : float) :
  PrimFloat.is_nan x = true <-> Prim2SF x = S754_nan.
Proof.
  unfold PrimFloat.is_nan. rewrite eqb_spec. unfold SFeqb. split.
  - intros H. destruct (Prim2SF x) eqn:E; try reflexivity;
      rewrite SFcompare_refl in H by discriminate; discriminate.
  - intros ->. reflexivity.
Qed.

Lemma is_nan_false (x : float) :
  PrimFloat.is_nan x = false <-> Prim2SF x <> S754_nan.
Proof.
  rewrite <- is_nan_spec. destruct (PrimFloat.is_nan x); split; congruence.
Qed.

(** A comparison that holds has no NaN on either side. *)
Lemma satisfies_not_nan c x value :
  Server.satisfies c x value = true ->
  PrimFloat.is_nan x = false /\ PrimFloat.is_nan value = false.
Proof.
  rewrite !is_nan_false.
  destruct c; simpl; rewrite ?eqb_spec, ?ltb_spec, ?leb_spec;
    unfold SFeqb, SFltb, SFleb; intros H;
    match type of H with
    | context [SFcompare ?a ?b] =>
        destruct (SFcompare a b) as [k|] eqn:E; [|discriminate];
        apply SFcompare_defined in E
    end; tauto.
Qed.

Lemma leb_ltb_eqb (x y : float) :
  PrimFloat.leb x y = PrimFloat.ltb x y || PrimFloat.eqb x y.
Proof.
  rewrite eqb_spec, ltb_spec, leb_spec. unfold SFeqb, SFltb, SFleb.
  now destruct (SFcompare (Prim2SF x) (Prim2SF y)) as [[| |]|].
Qed.

Lemma ltb_eqb_exclusive (x y : float) :
  PrimFloat.ltb x y && PrimFloat.eqb x y = false.
Proof.
  rewrite eqb_spec, ltb_spec. unfold SFeqb, SFltb.
  now destruct (SFcompare (Prim2SF x) (Prim2SF y)) as [[| |]|].
Qed.

(** Without NaN, [x >= y] is the negation of [x < y]. *)
Lemma leb_negb_ltb (x y : float) :
  PrimFloat.is_nan x = false -> PrimFloat.is_nan y = false ->
  PrimFloat.leb y x = negb (PrimFloat.ltb x y).
Proof.
  rewrite !is_nan_false. intros Hx Hy.
  rewrite ltb_spec, leb_spec. unfold SFltb, SFleb.
  rewrite (SFcompare_antisym (Prim2SF x) (Prim2SF y)).
  destruct (SFcompare_some _ _ Hx Hy) as [k ->]. now destruct k.
Qed.

Lemma ltb_then_not_geb (x y : float) :
  PrimFloat.ltb x y = true -> PrimFloat.leb y x = false.
Proof.
  intros H. destruct (satisfies_not_nan Server.Less x y H) as [Hx Hy].
  rewrite (leb_negb_ltb x y Hx Hy), H. reflexivity.
Qed.

(** NaN makes a difference, a sum and a product NaN. *)
Lemma sub_nan (x y : float) :
  PrimFloat.is_nan x = true \/ PrimFloat.is_nan y = true ->
  PrimFloat.is_nan (PrimFloat.sub x y) = true.
Proof.
  rewrite !is_nan_spec, sub_spec. intros [-> | ->]; [reflexivity|].
  now destruct (Prim2SF x).
Qed.

Lemma add_nan (x y : float) :
  PrimFloat.is_nan x = true \/ PrimFloat.is_nan y = true ->
  PrimFloat.is_nan (PrimFloat.add x y) = true.
Proof.
  rewrite !is_nan_spec, add_spec. intros [-> | ->]; [reflexivity|].
  now destruct (Prim2SF x).
Qed.

Lemma mul_nan (x y : float) :
  PrimFloat.is_nan x = true \/ PrimFloat.is_nan y = true ->
  PrimFloat.is_nan (PrimFloat.mul x y) = true.
Proof.
  rewrite !is_nan_spec, mul_spec. intros [-> | ->]; [reflexivity|].
  now destruct (Prim2SF x).
Qed.

Lemma leb_nan_l (x y : float) :
  PrimFloat.is_nan x = true -> PrimFloat.leb x y = false.
Proof.
  rewrite is_nan_spec, leb_spec. intros ->. reflexivity.
Qed.

(** ** Masks and column lookup *)

Lemma select_rows_map {A : Type} (p : A -> bool) (l : list A) :
  Server.select_rows (map p l) l = List.filter p l.
Proof.
  induction l as [|x l IH]; simpl; [reflexivity|].
  now rewrite IH.
Qed.

Lemma mask_and_map {A : Type} (f g : A -> bool) (l : list A) :
  Server.mask_and (map f l) (map g l) = map (fun x => f x && g x) l.
Proof.
  induction l as [|x l IH]; simpl; [reflexivity|].
  now rewrite IH.
Qed.

Lemma get_loc_In cols name :
  In name cols -> exists i, Server.get_loc cols name = Some i.
Proof.
  induction cols as [|c cols IH]; simpl; [easy|].
  intros H. destruct (String.eqb_spec c name) as [_|Hne]; [now exists 0|].
  destruct H as [H|H]; [contradiction|].
  destruct (IH H) as [i ->]. now exists (S i).
Qed.

Lemma get_loc_not_In cols name :
  ~ In name cols -> Server.get_loc cols name = None.
Proof.
  induction cols as [|c cols IH]; simpl; intros H; [reflexivity|].
  destruct (String.eqb_spec c name) as [E|_]; [tauto|].
  rewrite IH; [reflexivity | tauto].
Qed.


Lemma filter_all {A : Type} (l : list A) : List.filter (fun _ => true) l = l.
Proof. induction l as [|x l IH]; simpl; [reflexivity | now rewrite IH]. Qed.

Lemma filter_none {A : Type} (p : A -> bool) (l : list A) :
  (forall x, In x l -> p x = false) -> List.filter p l = [].
Proof.
  induction l as [|x l IH]; simpl; intros H; [reflexivity|].
  rewrite (H x) by now left. apply IH. intros y Hy. apply H. now right.
Qed.

Lemma filter_comm {A : Type} (p q : A -> bool) (l : list A) :
  List.filter p (List.filter q l) = List.filter q (List.filter p l).
Proof.
  induction l as [|x l IH]; simpl; [reflexivity|].
  destruct (p x) eqn:Ep, (q x) eqn:Eq; simpl; rewrite ?Ep, ?Eq, IH; reflexivity.
Qed.

(** Two tests that never hold together split the rows either admits. *)
Lemma filter_either_length {A : Type} (p q : A -> bool) (l : list A) :
  (forall x, p x && q x = false) ->
  length (List.filter (fun x => p x || q x) l)
  = length (List.filter p l) + length (List.filter q l).
Proof.
  intros H. induction l as [|x l IH]; simpl; [reflexivity|].
  specialize (H x). destruct (p x), (q x); simpl in *; try discriminate; lia.
Qed.



Lemma kept_all d : Server.kept d (fun _ => true) = d.
Proof. destruct d. unfold Server.kept. simpl. now rewrite filter_all. Qed.

(** The frame with the columns of [d] and no row. *)
Lemma kept_none d (p : list Server.field -> bool) :
  (forall r, In r (Server.rows d) -> p r = false) ->
  Server.kept d p = {| Server.columns := Server.columns d; Server.rows := [] |}.
Proof. intros H. unfold Server.kept. now rewrite (filter_none p _ H). Qed.

Lemma cell_same_columns d d' column_name r :
  Server.columns d' = Server.columns d ->
  Server.cell d' column_name r = Server.cell d column_name r.
Proof. unfold Server.cell. now intros ->. Qed.

Lemma getitem_cells d column_name :
  In column_name (Server.columns d) ->
  Server.getitem d column_name
  = Return (map (Server.cell d column_name) (Server.rows d)).
Proof.
  intros H. destruct (get_loc_In _ _ H) as [i Hi].
  unfold Server.getitem, Server.cell. now rewrite Hi.
Qed.

Lemma getitem_missing d column_name :
  ~ In column_name (Server.columns d) ->
  Server.getitem d column_name = Raise (KeyError column_name).
Proof.
  intros H. unfold Server.getitem. now rewrite (get_loc_not_In _ _ H).
Qed.

Lemma getitem_cases d column_name :
  Server.getitem d column_name
  = Return (map (Server.cell d column_name) (Server.rows d))
  \/ Server.getitem d column_name = Raise (KeyError column_name).
Proof.
  unfold Server.getitem, Server.cell.
  destruct (Server.get_loc (Server.columns d) column_name); [now left | now right].
Qed.

Lemma numeric_column_series d column_name :
  Server.numeric_column d column_name
  = forallb Server.is_number (map (Server.cell d column_name) (Server.rows d)).
Proof.
  unfold Server.numeric_column.
  induction (Server.rows d) as [|r rs IH]; simpl; [reflexivity | now rewrite IH].
Qed.

(** ** The mask of a comparison *)

Section Masks.

Variable compare_text : Server.comparator -> string -> float -> result bool.

(** A mask, when there is one, has the entry [passes] gives for each
    field, and every comparison has returned. *)
Lemma compare_series_return c value s :
  forall mask,
    Server.compare_series compare_text c s value = Return mask ->
    mask = map (Server.passes compare_text c value) s
    /\ (forall f, In f s ->
          Server.compare_field compare_text c f value
          = Return (Server.passes compare_text c value f)).
Proof.
  induction s as [|f s IH]; simpl; intros mask H.
  - injection H as <-. split; [reflexivity | now intros f []].
  - destruct (Server.compare_field compare_text c f value) as [b|e] eqn:Ef;
      [|discriminate].
    destruct (Server.compare_series compare_text c s value) as [m|e] eqn:Es;
      [|discriminate].
    injection H as <-. destruct (IH m eq_refl) as [-> Hall].
    split.
    + unfold Server.passes at 2. now rewrite Ef.
    + intros g [<- | Hg]; [|now apply Hall].
      unfold Server.passes. now rewrite Ef.
Qed.

(** Where every comparison returns, there is a mask. *)
Lemma compare_series_all c value (p : Server.field -> bool) s :
  (forall f, In f s -> Server.compare_field compare_text c f value = Return (p f)) ->
  Server.compare_series compare_text c s value = Return (map p s).
Proof.
  induction s as [|f s IH]; simpl; intros H; [reflexivity|].
  rewrite (H f) by now left. rewrite IH; [reflexivity|].
  intros g Hg. apply H. now right.
Qed.

(** On numbers the mask is that of the comparison of floats. *)
Lemma compare_series_numbers c value s :
  forallb Server.is_number s = true ->
  Server.compare_series compare_text c s value
  = Return (map (fun f => Server.satisfies c (Server.number f) value) s).
Proof.
  intros H. apply compare_series_all. intros f Hf.
  rewrite forallb_forall in H. specialize (H f Hf).
  destruct f; [reflexivity | discriminate].
Qed.

(** [keep_where] on a frame on whose rows every comparison returns. *)
Lemma keep_where_returns d column_name c value (p : Server.field -> bool) :
  In column_name (Server.columns d) ->
  (forall r, In r (Server.rows d) ->
     Server.compare_field compare_text c (Server.cell d column_name r) value
     = Return (p (Server.cell d column_name r))) ->
  Server.keep_where compare_text d column_name c value
  = (let d' := Server.kept d (fun r => p (Server.cell d column_name r)) in
     (Return (Server.ok_size d'), Some d')).
Proof.
  intros H Hp. unfold Server.keep_where.
  rewrite (getitem_cells d column_name H).
  rewrite (compare_series_all c value p).
  - cbn zeta. unfold Server.getitem_mask, Server.kept.
    now rewrite map_map, select_rows_map.
  - intros f Hf. apply in_map_iff in Hf. destruct Hf as (r & <- & Hr).
    now apply Hp.
Qed.

(** [keep_where] either raises and leaves the frame, or keeps the rows
    that pass, every comparison having returned. *)
Lemma keep_where_cases d column_name c value :
  (exists e,
     Server.keep_where compare_text d column_name c value = (Raise e, Some d))
  \/ (In column_name (Server.columns d)
      /\ (forall r, In r (Server.rows d) ->
            Server.compare_field compare_text c (Server.cell d column_name r) value
            = Return (Server.passes compare_text c value
                        (Server.cell d column_name r)))).
Proof.
  unfold Server.keep_where.
  destruct (getitem_cases d column_name) as [Hg|Hg]; rewrite Hg;
    [|left; now eexists].
  destruct (Server.compare_series compare_text c _ value) as [mask|e] eqn:Es;
    [|left; now eexists].
  right. split.
  - destruct (in_dec string_dec column_name (Server.columns d)) as [Hi|Hn];
      [exact Hi|].
    rewrite (getitem_missing _ _ Hn) in Hg. discriminate.
  - destruct (compare_series_return _ _ _ _ Es) as [_ Hall].
    intros r Hr. apply Hall. now apply in_map.
Qed.

(** On a column of numbers, [keep_where] keeps the rows whose number
    stands in the relation. *)
Lemma keep_where_kept d column_name c value :
  In column_name (Server.columns d) ->
  Server.numeric_column d column_name = true ->
  Server.keep_where compare_text d column_name c value =
    (let d' := Server.kept d (fun r =>
                 Server.satisfies c (Server.number (Server.cell d column_name r)) value) in
     (Return (Server.ok_size d'), Some d')).
Proof.
  intros H Hn.
  apply (keep_where_returns d column_name c value
           (fun f => Server.satisfies c (Server.number f) value) H).
  intros r Hr. unfold Server.numeric_column in Hn.
  rewrite forallb_forall in Hn. specialize (Hn r Hr).
  destruct (Server.cell d column_name r); [reflexivity | discriminate].
Qed.

Lemma filter_by_comparator d column_name value c :
  Server.filter compare_text column_name value (Server.comparator_name c) (Some d) =
    Server.keep_where compare_text d column_name c value.
Proof. destruct c; reflexivity. Qed.

Lemma keep_where_missing d column_name c value :
  ~ In column_name (Server.columns d) ->
  Server.keep_where compare_text d column_name c value
  = (Raise (KeyError column_name), Some d).
Proof.
  intros H. unfold Server.keep_where. now rewrite (getitem_missing _ _ H).
Qed.

(** Whatever the column and the comparison, [keep_where] leaves a frame of
    rows of [d] chosen by some test. *)
Lemma keep_where_narrows d column_name c value :
  exists p,
    snd (Server.keep_where compare_text d column_name c value)
    = Some (Server.kept d p).
Proof.
  destruct (keep_where_cases d column_name c value) as [[e He] | [Hi Hall]].
  - exists (fun _ => true). now rewrite He, kept_all.
  - eexists. now rewrite (keep_where_returns d column_name c value _ Hi Hall).
Qed.

(** A subset of the rows of a column of numbers is a column of numbers. *)
Lemma numeric_column_kept d column_name p :
  Server.numeric_column d column_name = true ->
  Server.numeric_column (Server.kept d p) column_name = true.
Proof.
  unfold Server.numeric_column. rewrite !forallb_forall.
  intros H r Hr. cbn [Server.kept Server.rows] in Hr.
  apply filter_In in Hr. rewrite (cell_same_columns d) by reflexivity.
  apply H. tauto.
Qed.

End Masks.

(** ** The tool server *)

Section ServerProperties.

Variable read_csv : string -> result Server.DataFrame.
Variable compare_text : Server.comparator -> string -> float -> result bool.
Variable quantile : list Server.field -> float -> result float.
Variable describe : list Server.field -> result (list (string * Server.field)).
Variable value_counts : list Server.field -> result (list (Server.field * nat)).
Variable mean : list Server.field -> result float.
Variable std : list Server.field -> result float.
Variable error_prefix : string -> string.
Variable other_text : exn -> string.

(** Before any successful load, the body of each of the seven tools that
    need the data set stops at its [assert]. *)
Lemma bodies_before_load_raise (column_name : string) (value : float) (by_ : string) :
  let cause := AssertionError "Must execute `load_data` first." in
  Server.get_column_names None = (Raise cause, None)
  /\ Server.describe_column describe column_name None = (Raise cause, None)
  /\ Server.get_value_counts value_counts column_name None = (Raise cause, None)
  /\ Server.filter compare_text column_name value by_ None = (Raise cause, None)
  /\ Server.remove_outliers compare_text quantile column_name None = (Raise cause, None)
  /\ Server.compute_mean mean column_name None = (Raise cause, None)
  /\ Server.compute_standard_deviation std column_name None = (Raise cause, None).
Proof. repeat split. Qed.

(** A call through the session of a body that raises gives the error
    result that ends with the message, and the state the body left. *)
Lemma mcp_tool_of_raise {A : Type} tool_name (body : Server.tool A) df e df' :
  body df = (Raise e, df') ->
  Server.mcp_tool error_prefix other_text tool_name body df
  = (Server.ToolError (error_prefix tool_name ++ Server.str_exn other_text e), df').
Proof. intros H. unfold Server.mcp_tool. now rewrite H. Qed.

(** C1: called through the session before any successful load, each of
    the seven tools that need the data set gives back a result, not an
    exception: the error result whose text ends with the cause, "Must
    execute `load_data` first."; the data set stays absent. *)
Theorem tools_before_load_report_cause (column_name : string) (value : float)
  (by_ : string) :
  let reported {A : Type} (tool_name : string)
    : Server.CallToolResult A * option Server.DataFrame :=
    (Server.ToolError (error_prefix tool_name ++ "Must execute `load_data` first."),
     None) in
  Server.mcp_tool error_prefix other_text "get_column_names"
    Server.get_column_names None = reported "get_column_names"
  /\ Server.mcp_tool error_prefix other_text "describe_column"
       (Server.describe_column describe column_name) None
     = reported "describe_column"
  /\ Server.mcp_tool error_prefix other_text "get_value_counts"
       (Server.get_value_counts value_counts column_name) None
     = reported "get_value_counts"
  /\ Server.mcp_tool error_prefix other_text "filter"
       (Server.filter compare_text column_name value by_) None
     = reported "filter"
  /\ Server.mcp_tool error_prefix other_text "remove_outliers"
       (Server.remove_outliers compare_text quantile column_name) None
     = reported "remove_outliers"
  /\ Server.mcp_tool error_prefix other_text "compute_mean"
       (Server.compute_mean mean column_name) None
     = reported "compute_mean"
  /\ Server.mcp_tool error_prefix other_text "compute_standard_deviation"
       (Server.compute_standard_deviation std column_name) None
     = reported "compute_standard_deviation"
  /\ (forall tool_name,
        endswith (error_prefix tool_name ++ "Must execute `load_data` first.")
                 "Must execute `load_data` first." = true).
Proof.
  intros reported.
  destruct (bodies_before_load_raise column_name value by_)
    as (H1 & H2 & H3 & H4 & H5 & H6 & H7).
  repeat split;
    try (subst reported; cbv beta; erewrite mcp_tool_of_raise by eassumption;
         reflexivity).
  intros tool_name. apply endswith_app.
Qed.

(** A load that raises (no such file) leaves the data set as it was, so it
    stays absent until a load succeeds. *)
Lemma failed_load_keeps_state file_name df e :
  fst (Server.load_data read_csv file_name df) = Raise e ->
  snd (Server.load_data read_csv file_name df) = df.
Proof.
  unfold Server.load_data. destruct (read_csv _); simpl; [discriminate | reflexivity].
Qed.

(** C2, as amended: on a frame that has the column, and numbers only in
    it, [filter] with one of the five comparators keeps exactly the rows
    whose number stands in that relation to [value], in their order: every
    row kept satisfies the comparison, every row dropped fails it, there
    are no more rows than before, and the result reports the new number of
    rows. *)
Theorem filter_keeps_satisfying d column_name value c :
  In column_name (Server.columns d) ->
  Server.numeric_column d column_name = true ->
  let holds r :=
    Server.satisfies c (Server.number (Server.cell d column_name r)) value in
  exists d',
    Server.filter compare_text column_name value (Server.comparator_name c) (Some d)
      = (Return {| Server.success := true;
                   Server.info := Server.data_size (length (Server.rows d')) |},
         Some d')
    /\ Server.columns d' = Server.columns d
    /\ Server.rows d' = List.filter holds (Server.rows d)
    /\ length (Server.rows d') <= length (Server.rows d)
    /\ (forall r, In r (Server.rows d') -> In r (Server.rows d) /\ holds r = true)
    /\ (forall r, In r (Server.rows d) -> ~ In r (Server.rows d') -> holds r = false).
Proof.
  intros H Hn holds.
  exists (Server.kept d holds).
  rewrite filter_by_comparator, keep_where_kept by assumption.
  do 3 (split; [reflexivity|]).
  split; [apply filter_length_le|]. split.
  - intros r Hr. now apply filter_In in Hr.
  - intros r Hr Hnot. destruct (holds r) eqn:E; [|reflexivity].
    exfalso. apply Hnot, filter_In. now split.
Qed.

(** C4: on a loaded frame, [filter] with a comparator that is none of the
    five returns the dictionary with [success = False] and the message
    that quotes the comparator, and the frame is the one before the call;
    nothing is raised, whether the column exists or not. *)
Theorem filter_unrecognized d column_name value by_ :
  ~ Server.recognized by_ ->
  Server.filter compare_text column_name value by_ (Some d)
    = (Return {| Server.success := false;
                 Server.info :=
                   Server.error_message
                     ("Unrecognized value for `by`: "
                      ++ String dquote by_ ++ String dquote ".") |},
       Some d).
Proof.
  intros H. unfold Server.filter, Server.assert_loaded.
  repeat match goal with
         | |- context [String.eqb by_ ?n] =>
             destruct (String.eqb_spec by_ n) as [E|_]
         end;
    try reflexivity; exfalso; apply H; subst by_.
  - now exists Server.Equal.
  - now exists Server.Less.
  - now exists Server.LessEqual.
  - now exists Server.Greater.
  - now exists Server.GreaterEqual.
Qed.

(** [remove_outliers] on a column of numbers whose quartiles are [q1] and
    [q3]. *)
Lemma remove_outliers_kept d column_name q1 q3 :
  In column_name (Server.columns d) ->
  Server.numeric_column d column_name = true ->
  let s := map (Server.cell d column_name) (Server.rows d) in
  quantile s 0.25 = Return q1 ->
  quantile s 0.75 = Return q3 ->
  let lower := PrimFloat.sub q1 (PrimFloat.mul 1.5 (PrimFloat.sub q3 q1)) in
  let upper := PrimFloat.add q3 (PrimFloat.mul 1.5 (PrimFloat.sub q3 q1)) in
  let d' := Server.kept d (fun r =>
              Server.within lower upper
                (Server.number (Server.cell d column_name r))) in
  Server.remove_outliers compare_text quantile column_name (Some d)
  = (Return (Server.ok_size d'), Some d').
Proof.
  intros H Hn s H1 H3. cbn zeta.
  unfold Server.remove_outliers, Server.assert_loaded.
  rewrite (getitem_cells d column_name H). fold s. rewrite H1, H3. cbn zeta.
  rewrite numeric_column_series in Hn. fold s in Hn.
  rewrite !(compare_series_numbers compare_text _ _ s Hn).
  rewrite mask_and_map. subst s.
  unfold Server.getitem_mask, Server.kept.
  rewrite map_map, select_rows_map. reflexivity.
Qed.

(** C5, as amended: on a frame that has the column, and numbers only in
    it, with [Q1] and [Q3] the quantiles 0.25 and 0.75 of the column,
    [remove_outliers] keeps exactly the rows whose number lies in
    [[Q1 - 1.5 IQR, Q3 + 1.5 IQR]], where [IQR = Q3 - Q1], and the result
    reports the new number of rows. *)
Theorem remove_outliers_keeps_interval d column_name q1 q3 :
  In column_name (Server.columns d) ->
  Server.numeric_column d column_name = true ->
  let s := map (Server.cell d column_name) (Server.rows d) in
  quantile s 0.25 = Return q1 ->
  quantile s 0.75 = Return q3 ->
  let iqr := PrimFloat.sub q3 q1 in
  let lower := PrimFloat.sub q1 (PrimFloat.mul 1.5 iqr) in
  let upper := PrimFloat.add q3 (PrimFloat.mul 1.5 iqr) in
  let inside r :=
    Server.within lower upper (Server.number (Server.cell d column_name r)) in
  exists d',
    Server.remove_outliers compare_text quantile column_name (Some d)
      = (Return {| Server.success := true;
                   Server.info := Server.data_size (length (Server.rows d')) |},
         Some d')
    /\ Server.columns d' = Server.columns d
    /\ Server.rows d' = List.filter inside (Server.rows d)
    /\ (forall r, In r (Server.rows d') <-> In r (Server.rows d) /\ inside r = true).
Proof.
  intros H Hn s H1 H3 iqr lower upper inside.
  exists (Server.kept d inside).
  split; [|split; [reflexivity|split; [reflexivity|]]].
  - exact (remove_outliers_kept d column_name q1 q3 H Hn H1 H3).
  - intros r. cbn [Server.kept Server.rows]. apply filter_In.
Qed.

(** C7: on a loaded frame, the five tools that only read return with the
    frame they found, columns and rows, whether they return a value or
    raise ([KeyError] for a column the frame lacks, or what pandas
    raises). *)
Theorem read_only_tools_keep_frame d column_name :
  snd (Server.get_column_names (Some d)) = Some d
  /\ snd (Server.describe_column describe column_name (Some d)) = Some d
  /\ snd (Server.get_value_counts value_counts column_name (Some d)) = Some d
  /\ snd (Server.compute_mean mean column_name (Some d)) = Some d
  /\ snd (Server.compute_standard_deviation std column_name (Some d)) = Some d.
Proof. repeat split. Qed.


(** The resolution of lines 22-25 in terms of the name given: the code
    tests the directory after it has put the extension. *)
Lemma resolve_path_by_given_name file_name :
  Server.resolve_path file_name =
    (if startswith file_name "examples/DA-Agent/data/da-dev-tables/"
     then "" else "examples/DA-Agent/data/da-dev-tables/")
    ++ file_name
    ++ (if endswith file_name ".csv" then "" else ".csv").
Proof.
  unfold Server.resolve_path.
  fold Server.csv Server.tables_dir.
  destruct (endswith file_name Server.csv) eqn:Ee; cbn [negb].
  - rewrite append_nil_r.
    destruct (startswith file_name Server.tables_dir); reflexivity.
  - rewrite (startswith_after_csv file_name).
    destruct (startswith file_name Server.tables_dir); reflexivity.
Qed.

(** C9: for every name given and whatever the files are, [load_data] reads
    the file whose path is the name with the directory of the tables put
    before it exactly when the name does not start with that directory,
    and with ".csv" put after it exactly when the name does not end with
    ".csv"; a part already there is not added again.  The frame read
    becomes the data set and its number of rows is reported. *)
Theorem load_data_reads_path_by_given_name file_name df :
  Server.load_data read_csv file_name df =
    match
      read_csv
        ((if startswith file_name "examples/DA-Agent/data/da-dev-tables/"
          then "" else "examples/DA-Agent/data/da-dev-tables/")
         ++ file_name
         ++ (if endswith file_name ".csv" then "" else ".csv"))
    with
    | Return d =>
        (Return {| Server.success := true;
                   Server.info := Server.data_size (length (Server.rows d)) |},
         Some d)
    | Raise e => (Raise e, df)
    end.
Proof.
  unfold Server.load_data. rewrite resolve_path_by_given_name.
  destruct (read_csv _); reflexivity.
Qed.

End ServerProperties.

(** * Further properties of the tool server *)

Section ServerFurther.

Variable read_csv : string -> result Server.DataFrame.
Variable compare_text : Server.comparator -> string -> float -> result bool.
Variable quantile : list Server.field -> float -> result float.
Variable describe : list Server.field -> result (list (string * Server.field)).
Variable value_counts : list Server.field -> result (list (Server.field * nat)).
Variable mean : list Server.field -> result float.
Variable std : list Server.field -> result float.

(** ** The path of a data set *)

Lemma resolve_path_shape_aux file_name :
  startswith (Server.resolve_path file_name) Server.tables_dir = true
  /\ endswith (Server.resolve_path file_name) Server.csv = true.
Proof.
  unfold Server.resolve_path.
  set (name := if negb (endswith file_name Server.csv)
               then file_name ++ Server.csv else file_name).
  assert (Hn : endswith name Server.csv = true).
  { subst name. destruct (endswith file_name Server.csv) eqn:E; cbn [negb];
      [exact E | apply endswith_app]. }
  destruct (startswith name Server.tables_dir) eqn:E; cbn [negb].
  - now split.
  - split; [apply startswith_app | now apply endswith_prepend].
Qed.

(** X1: whatever the name given and whatever the files are, the path of
    the file [load_data] reads lies in the directory of the tables and
    ends with ".csv". *)
Theorem load_data_path_shape file_name :
  exists path,
    startswith path "examples/DA-Agent/data/da-dev-tables/" = true
    /\ endswith path ".csv" = true
    /\ forall df,
         Server.load_data read_csv file_name df =
           match read_csv path with
           | Return d => (Return (Server.ok_size d), Some d)
           | Raise e => (Raise e, df)
           end.
Proof.
  exists (Server.resolve_path file_name).
  destruct (resolve_path_shape_aux file_name) as [Hs He].
  split; [exact Hs|]. split; [exact He|].
  intros df. reflexivity.
Qed.

(** X2: resolving a resolved path changes nothing: neither the directory
    nor the extension is added a second time. *)
Theorem resolve_path_idempotent file_name :
  Server.resolve_path (Server.resolve_path file_name) = Server.resolve_path file_name.
Proof.
  destruct (resolve_path_shape_aux file_name) as [Hs He].
  unfold Server.resolve_path at 1.
  rewrite He. cbn [negb]. rewrite Hs. reflexivity.
Qed.

(** ** Columns that are missing *)

(** X3: on a loaded frame without the column, the tools that take a column
    ([filter] with any of the five comparators included) raise [KeyError]
    with the name of the column and leave the frame as it was. *)
Theorem missing_column_raises d column_name value c :
  ~ In column_name (Server.columns d) ->
  let failed {A : Type} : result A * option Server.DataFrame :=
    (Raise (KeyError column_name), Some d) in
  Server.describe_column describe column_name (Some d) = failed
  /\ Server.get_value_counts value_counts column_name (Some d) = failed
  /\ Server.filter compare_text column_name value (Server.comparator_name c) (Some d)
     = failed
  /\ Server.remove_outliers compare_text quantile column_name (Some d) = failed
  /\ Server.compute_mean mean column_name (Some d) = failed
  /\ Server.compute_standard_deviation std column_name (Some d) = failed.
Proof.
  intros H failed. subst failed.
  pose proof (getitem_missing _ _ H) as Hg.
  unfold Server.describe_column, Server.get_value_counts, Server.compute_mean,
    Server.compute_standard_deviation, Server.remove_outliers,
    Server.read_only, Server.assert_loaded.
  rewrite Hg. cbn [Server.result_bind].
  repeat split.
  rewrite filter_by_comparator. now apply keep_where_missing.
Qed.

(** ** Narrowing *)

(** X4: whatever their arguments and whatever they return or raise,
    [filter] and [remove_outliers] leave a loaded frame loaded, with the
    same columns and with rows that are rows of the frame before, chosen by
    some test and in their order; there are never more rows than before. *)
Theorem narrowing_only d column_name value by_ :
  (exists d' p,
     snd (Server.filter compare_text column_name value by_ (Some d)) = Some d'
     /\ Server.columns d' = Server.columns d
     /\ Server.rows d' = List.filter p (Server.rows d)
     /\ length (Server.rows d') <= length (Server.rows d))
  /\ (exists d' p,
        snd (Server.remove_outliers compare_text quantile column_name (Some d))
          = Some d'
        /\ Server.columns d' = Server.columns d
        /\ Server.rows d' = List.filter p (Server.rows d)
        /\ length (Server.rows d') <= length (Server.rows d)).
Proof.
  assert (K : forall p, exists d' q,
             Some (Server.kept d p) = Some d'
             /\ Server.columns d' = Server.columns d
             /\ Server.rows d' = List.filter q (Server.rows d)
             /\ length (Server.rows d') <= length (Server.rows d)).
  { intros p. exists (Server.kept d p), p. repeat split. apply filter_length_le. }
  assert (U : exists d' q,
             Some d = Some d'
             /\ Server.columns d' = Server.columns d
             /\ Server.rows d' = List.filter q (Server.rows d)
             /\ length (Server.rows d') <= length (Server.rows d)).
  { exists d, (fun _ => true). rewrite filter_all. now repeat split. }
  split.
  - unfold Server.filter, Server.assert_loaded.
    repeat match goal with
           | |- context [if String.eqb by_ ?n then _ else _] =>
               destruct (String.eqb by_ n)
           end;
      try (match goal with
           | |- context [Server.keep_where compare_text d column_name ?k value] =>
               destruct (keep_where_narrows compare_text d column_name k value)
                 as [p ->]
           end; apply K).
    exact U.
  - unfold Server.remove_outliers, Server.assert_loaded.
    destruct (getitem_cases d column_name) as [Hg|Hg]; rewrite Hg; [|exact U].
    destruct (quantile _ 0.25) as [q1|e]; [|exact U].
    destruct (quantile _ 0.75) as [q3|e]; [|exact U].
    cbn zeta.
    destruct (Server.compare_series compare_text Server.GreaterEqual _ _)
      as [above|e] eqn:Ea; [|exact U].
    destruct (Server.compare_series compare_text Server.LessEqual _ _)
      as [below|e] eqn:Eb; [|exact U].
    apply compare_series_return in Ea. destruct Ea as [-> _].
    apply compare_series_return in Eb. destruct Eb as [-> _].
    cbn [snd]. unfold Server.getitem_mask.
    rewrite mask_and_map, map_map, select_rows_map.
    match goal with
    | |- context [List.filter ?p (Server.rows d)] => apply (K p)
    end.
Qed.

(** ** Columns of numbers: order, missing values and the five comparisons *)

Lemma filter_kept d column_name value c :
  In column_name (Server.columns d) ->
  Server.numeric_column d column_name = true ->
  let d' := Server.kept d (fun r =>
              Server.satisfies c (Server.number (Server.cell d column_name r)) value) in
  Server.filter compare_text column_name value (Server.comparator_name c) (Some d)
  = (Return (Server.ok_size d'), Some d').
Proof.
  intros H Hn. rewrite filter_by_comparator. now apply keep_where_kept.
Qed.

(** X5: two filters on columns of the frame that hold numbers only, with
    any of the five comparators, leave the same frame in either order. *)
Theorem filters_commute d column1 value1 c1 column2 value2 c2 :
  In column1 (Server.columns d) ->
  Server.numeric_column d column1 = true ->
  In column2 (Server.columns d) ->
  Server.numeric_column d column2 = true ->
  snd (Server.filter compare_text column2 value2 (Server.comparator_name c2)
         (snd (Server.filter compare_text column1 value1
                 (Server.comparator_name c1) (Some d))))
  = snd (Server.filter compare_text column1 value1 (Server.comparator_name c1)
           (snd (Server.filter compare_text column2 value2
                   (Server.comparator_name c2) (Some d)))).
Proof.
  intros H1 N1 H2 N2.
  rewrite (filter_kept d column1 value1 c1 H1 N1).
  rewrite (filter_kept d column2 value2 c2 H2 N2). cbn zeta. cbn [snd].
  rewrite filter_kept;
    [|exact H2 | now apply numeric_column_kept].
  rewrite filter_kept;
    [|exact H1 | now apply numeric_column_kept].
  cbn zeta. cbn [snd]. unfold Server.kept. cbn [Server.rows Server.columns].
  f_equal. f_equal. rewrite filter_comm. reflexivity.
Qed.

(** X6: on a column of numbers, a filter against NaN keeps no row,
    whichever of the five comparators it uses: the frame is left with its
    columns and no rows, and the size reported is 0. *)
Theorem filter_by_nan_keeps_nothing d column_name value c :
  In column_name (Server.columns d) ->
  Server.numeric_column d column_name = true ->
  PrimFloat.is_nan value = true ->
  Server.filter compare_text column_name value (Server.comparator_name c) (Some d)
  = (Return {| Server.success := true; Server.info := Server.data_size 0 |},
     Some {| Server.columns := Server.columns d; Server.rows := [] |}).
Proof.
  intros H Hn Hv. rewrite (filter_kept d column_name value c H Hn). cbn zeta.
  rewrite kept_none; [reflexivity|].
  intros r _.
  destruct (Server.satisfies c (Server.number (Server.cell d column_name r)) value)
    eqn:E; [|reflexivity].
  apply satisfies_not_nan in E. destruct E as [_ E]. congruence.
Qed.

(** X7: on a column of numbers, when [filter] with one of the five
    comparators returns, and when [remove_outliers] returns, no row that
    is left has NaN in the column: rows without a value there are
    dropped. *)
Theorem rows_without_value_dropped d column_name value c :
  In column_name (Server.columns d) ->
  Server.numeric_column d column_name = true ->
  (forall t d',
     Server.filter compare_text column_name value (Server.comparator_name c) (Some d)
       = (Return t, Some d') ->
     Forall (fun r => PrimFloat.is_nan
                        (Server.number (Server.cell d column_name r)) = false)
            (Server.rows d'))
  /\ (forall t d',
        Server.remove_outliers compare_text quantile column_name (Some d)
          = (Return t, Some d') ->
        Forall (fun r => PrimFloat.is_nan
                           (Server.number (Server.cell d column_name r)) = false)
               (Server.rows d')).
Proof.
  intros H Hn. split; intros t d' Hr.
  - rewrite (filter_kept d column_name value c H Hn) in Hr. cbn zeta in Hr.
    injection Hr as _ <-.
    apply Forall_forall. intros r Hin. apply filter_In in Hin.
    destruct Hin as [_ Hin]. now apply satisfies_not_nan in Hin.
  - destruct (quantile (map (Server.cell d column_name) (Server.rows d)) 0.25)
      as [q1|e1] eqn:E1.
    + destruct (quantile (map (Server.cell d column_name) (Server.rows d)) 0.75)
        as [q3|e3] eqn:E3.
      * rewrite (remove_outliers_kept compare_text quantile d column_name q1 q3
                   H Hn E1 E3) in Hr.
        cbn zeta in Hr. injection Hr as _ <-.
        apply Forall_forall. intros r Hin. apply filter_In in Hin.
        destruct Hin as [_ Hin]. unfold Server.within in Hin.
        apply andb_prop in Hin. destruct Hin as [_ Hin].
        now apply (satisfies_not_nan Server.LessEqual) in Hin.
      * unfold Server.remove_outliers, Server.assert_loaded in Hr.
        rewrite (getitem_cells d column_name H), E1, E3 in Hr. discriminate Hr.
    + unfold Server.remove_outliers, Server.assert_loaded in Hr.
      rewrite (getitem_cells d column_name H), E1 in Hr. discriminate Hr.
Qed.

(** X8: on one frame and a column of numbers, the size [filter] reports
    for "less/equal" is the sum of the sizes it reports for "less" and for
    "equal". *)
Theorem less_equal_size_is_sum d column_name value :
  In column_name (Server.columns d) ->
  Server.numeric_column d column_name = true ->
  exists n_less n_equal,
    fst (Server.filter compare_text column_name value "less" (Some d))
      = Return {| Server.success := true; Server.info := Server.data_size n_less |}
    /\ fst (Server.filter compare_text column_name value "equal" (Some d))
      = Return {| Server.success := true; Server.info := Server.data_size n_equal |}
    /\ fst (Server.filter compare_text column_name value "less/equal" (Some d))
      = Return {| Server.success := true;
                  Server.info := Server.data_size (n_less + n_equal) |}.
Proof.
  intros H Hn.
  pose proof (filter_kept d column_name value Server.Less H Hn) as Hl.
  pose proof (filter_kept d column_name value Server.Equal H Hn) as He.
  pose proof (filter_kept d column_name value Server.LessEqual H Hn) as Hle.
  cbn zeta in Hl, He, Hle. cbn [Server.comparator_name] in Hl, He, Hle.
  rewrite Hl, He, Hle. cbn [fst].
  eexists. eexists. split; [reflexivity|]. split; [reflexivity|].
  unfold Server.ok_size, Server.shape0, Server.kept. cbn [Server.rows].
  do 3 f_equal.
  rewrite <- (filter_either_length
                (fun r => PrimFloat.ltb
                            (Server.number (Server.cell d column_name r)) value)
                (fun r => PrimFloat.eqb
                            (Server.number (Server.cell d column_name r)) value)).
  - f_equal. apply filter_ext. intros r. apply leb_ltb_eqb.
  - intros r. apply ltb_eqb_exclusive.
Qed.

(** X9: on a column of numbers, "less" and then "greater/equal" against
    the same value leave no row: the second filter reports size 0. *)
Theorem less_then_greater_equal_empty d column_name value :
  In column_name (Server.columns d) ->
  Server.numeric_column d column_name = true ->
  Server.filter compare_text column_name value "greater/equal"
    (snd (Server.filter compare_text column_name value "less" (Some d)))
  = (Return {| Server.success := true; Server.info := Server.data_size 0 |},
     Some {| Server.columns := Server.columns d; Server.rows := [] |}).
Proof.
  intros H Hn.
  pose proof (filter_kept d column_name value Server.Less H Hn) as Hl.
  cbn zeta in Hl. cbn [Server.comparator_name] in Hl. rewrite Hl. cbn [snd].
  match goal with
  | |- context [Some (Server.kept d ?p)] => set (d1 := Server.kept d p)
  end.
  assert (Hn1 : Server.numeric_column d1 column_name = true)
    by (subst d1; now apply numeric_column_kept).
  pose proof (filter_kept d1 column_name value Server.GreaterEqual H Hn1) as Hg.
  cbn zeta in Hg. cbn [Server.comparator_name] in Hg. rewrite Hg.
  rewrite kept_none; [reflexivity|].
  intros r Hr. subst d1. cbn [Server.kept Server.rows] in Hr.
  apply filter_In in Hr. destruct Hr as [_ Hr].
  rewrite (cell_same_columns d) by reflexivity.
  now apply ltb_then_not_geb.
Qed.

(** X10: on a column of numbers and against a value that is not NaN, the
    sizes [filter] reports for "less" and for "greater/equal" on one frame
    add up to the number of rows that have a value in the column. *)
Theorem less_and_greater_equal_cover d column_name value :
  In column_name (Server.columns d) ->
  Server.numeric_column d column_name = true ->
  PrimFloat.is_nan value = false ->
  exists n_less n_greater_equal,
    fst (Server.filter compare_text column_name value "less" (Some d))
      = Return {| Server.success := true; Server.info := Server.data_size n_less |}
    /\ fst (Server.filter compare_text column_name value "greater/equal" (Some d))
      = Return {| Server.success := true;
                  Server.info := Server.data_size n_greater_equal |}
    /\ n_less + n_greater_equal
       = length (List.filter
                   (fun r => negb (PrimFloat.is_nan
                                     (Server.number (Server.cell d column_name r))))
                   (Server.rows d)).
Proof.
  intros H Hn Hv.
  pose proof (filter_kept d column_name value Server.Less H Hn) as Hl.
  pose proof (filter_kept d column_name value Server.GreaterEqual H Hn) as Hg.
  cbn zeta in Hl, Hg. cbn [Server.comparator_name] in Hl, Hg.
  rewrite Hl, Hg. cbn [fst].
  eexists. eexists. split; [reflexivity|]. split; [reflexivity|].
  unfold Server.shape0, Server.kept. cbn [Server.rows Server.satisfies].
  rewrite <- filter_either_length.
  - f_equal. apply filter_ext. intros r.
    set (x := Server.number (Server.cell d column_name r)).
    destruct (PrimFloat.is_nan x) eqn:En; cbn [negb].
    + destruct (PrimFloat.ltb x value) eqn:E1.
      * apply (satisfies_not_nan Server.Less) in E1. destruct E1; congruence.
      * destruct (PrimFloat.leb value x) eqn:E2; [|reflexivity].
        apply (satisfies_not_nan Server.GreaterEqual) in E2.
        destruct E2; congruence.
    + rewrite (leb_negb_ltb _ _ En Hv).
      now destruct (PrimFloat.ltb x value).
  - intros r.
    destruct (PrimFloat.ltb (Server.number (Server.cell d column_name r)) value)
      eqn:E1; [|reflexivity].
    now rewrite (ltb_then_not_geb _ _ E1).
Qed.

(** X11: on a column of numbers, when a quartile of the column is NaN (as
    for a column without any value), [remove_outliers] drops every row and
    reports size 0. *)
Theorem remove_outliers_nan_quartile d column_name q1 q3 :
  In column_name (Server.columns d) ->
  Server.numeric_column d column_name = true ->
  let s := map (Server.cell d column_name) (Server.rows d) in
  quantile s 0.25 = Return q1 ->
  quantile s 0.75 = Return q3 ->
  PrimFloat.is_nan q1 = true \/ PrimFloat.is_nan q3 = true ->
  Server.remove_outliers compare_text quantile column_name (Some d)
  = (Return {| Server.success := true; Server.info := Server.data_size 0 |},
     Some {| Server.columns := Server.columns d; Server.rows := [] |}).
Proof.
  intros H Hn s H1 H3 Hq.
  rewrite (remove_outliers_kept compare_text quantile d column_name q1 q3
             H Hn H1 H3).
  cbn zeta. rewrite kept_none; [reflexivity|].
  intros r _. unfold Server.within.
  rewrite leb_nan_l; [reflexivity|].
  apply sub_nan. destruct Hq as [Hq|Hq]; [now left | right].
  apply mul_nan. right. apply sub_nan. now left.
Qed.

End ServerFurther.

(** ** The tools on concrete inputs *)

Example resolve_bare_name :
  Server.resolve_path "titanic" = "examples/DA-Agent/data/da-dev-tables/titanic.csv".
Proof. reflexivity. Qed.

Example resolve_full_path :
  Server.resolve_path "examples/DA-Agent/data/da-dev-tables/titanic.csv"
  = "examples/DA-Agent/data/da-dev-tables/titanic.csv".
Proof. reflexivity. Qed.

(** The directory without its slash is a name like any other. *)
Example resolve_directory_name :
  Server.resolve_path "examples/DA-Agent/data/da-dev-tables"
  = "examples/DA-Agent/data/da-dev-tables/examples/DA-Agent/data/da-dev-tables.csv".
Proof. reflexivity. Qed.

(** A load of "titanic" where there is no file: the path looked for is in
    the exception, and the data set stays as it was. *)
Example load_missing_file :
  Server.load_data (fun path => Raise (FileNotFoundError path)) "titanic"
    (Some Server.passengers)
  = (Raise (FileNotFoundError "examples/DA-Agent/data/da-dev-tables/titanic.csv"),
     Some Server.passengers).
Proof. reflexivity. Qed.

(** A row without an age fails every comparison and is dropped. *)
Example filter_drops_missing_age :
  Server.filter Server.python_compare_text "age" 4%float "greater/equal"
    (Some Server.passengers)
  = (Return {| Server.success := true; Server.info := Server.data_size 4 |},
     Some {| Server.columns := ["age"; "fare"];
             Server.rows := [ [Server.Num 22; Server.Num 7.25];
                              [Server.Num 38; Server.Num 71.5];
                              [Server.Num 4; Server.Num 16.5];
                              [Server.Num 17; Server.Num 512] ] |}).
Proof. reflexivity. Qed.

Example filter_unknown_column :
  Server.filter Server.python_compare_text "cabin" 4%float "less"
    (Some Server.passengers)
  = (Raise (KeyError "cabin"), Some Server.passengers).
Proof. reflexivity. Qed.

Example filter_minors :
  Server.filter Server.python_compare_text "age" 18%float "less"
    (Some Server.passengers)
  = (Return {| Server.success := true; Server.info := Server.data_size 2 |},
     Some {| Server.columns := ["age"; "fare"];
             Server.rows := [ [Server.Num 4; Server.Num 16.5];
                              [Server.Num 17; Server.Num 512] ] |}).
Proof. reflexivity. Qed.

(** On the names, an order comparison raises and the frame stays; an
    equality holds of no name and empties the frame. *)
Example filter_names :
  Server.filter Server.python_compare_text "name" 18%float "less" (Some Server.named)
  = (Raise (TypeError "'<' not supported between instances of 'str' and 'float'"),
     Some Server.named)
  /\ Server.filter Server.python_compare_text "name" 18%float "equal"
       (Some Server.named)
     = (Return {| Server.success := true; Server.info := Server.data_size 0 |},
        Some {| Server.columns := ["name"; "age"]; Server.rows := [] |}).
Proof. split; reflexivity. Qed.

(** Through the session, the exception of a body is an error result. *)
Example filter_before_load_through_session :
  Server.mcp_tool (fun tool_name => "Error executing tool " ++ tool_name ++ ": ")
    (fun _ => "") "filter"
    (Server.filter Server.python_compare_text "age" 18%float "less") None
  = (Server.ToolError
       "Error executing tool filter: Must execute `load_data` first.",
     None).
Proof. reflexivity. Qed.

(** The fare 512 lies above [Q3 + 1.5 IQR = 166] and is removed. *)
Example remove_outlying_fare :
  Server.remove_outliers Server.python_compare_text Server.series_quantile "fare"
    (Some Server.passengers)
  = (Return {| Server.success := true; Server.info := Server.data_size 4 |},
     Some {| Server.columns := ["age"; "fare"];
             Server.rows := [ [Server.Num 22; Server.Num 7.25];
                              [Server.Num 38; Server.Num 71.5];
                              [Server.Num 4; Server.Num 16.5];
                              [Server.Num nan; Server.Num 8.5] ] |}).
Proof. reflexivity. Qed.

Example quartiles_of_fares :
  let fares := [7.25%float; 71.5%float; 16.5%float; 8.5%float; 512%float] in
  Server.linear_quantile fares 0.25 = 8.5%float
  /\ Server.linear_quantile fares 0.75 = 71.5%float.
Proof. split; reflexivity. Qed.

(** C2, as stated, fails: the names are a column of the frame, and
    [filter] with "less" on it returns no result and no row count; a
    [TypeError] leaves the function and the frame is as before. *)
Lemma filter_less_on_names_returns_nothing :
  In "name" (Server.columns Server.named)
  /\ ~ returns (fst (Server.filter Server.python_compare_text "name" 18%float "less"
                       (Some Server.named)))
  /\ snd (Server.filter Server.python_compare_text "name" 18%float "less"
            (Some Server.named)) = Some Server.named.
Proof.
  split; [simpl; auto|]. split; [|reflexivity].
  intros [a H]. discriminate H.
Qed.

(** [filter_keeps_satisfying] on the passengers younger than 18. *)
Lemma filter_keeps_satisfying_witness :
  let holds r :=
    Server.satisfies Server.Less
      (Server.number (Server.cell Server.passengers "age" r)) 18%float in
  exists d',
    Server.filter Server.python_compare_text "age" 18%float "less"
      (Some Server.passengers)
      = (Return {| Server.success := true;
                   Server.info := Server.data_size (length (Server.rows d')) |},
         Some d')
    /\ Server.columns d' = Server.columns Server.passengers
    /\ Server.rows d' = List.filter holds (Server.rows Server.passengers)
    /\ length (Server.rows d') <= length (Server.rows Server.passengers)
    /\ (forall r, In r (Server.rows d') ->
                  In r (Server.rows Server.passengers) /\ holds r = true)
    /\ (forall r, In r (Server.rows Server.passengers) ->
                  ~ In r (Server.rows d') -> holds r = false).
Proof.
  apply (filter_keeps_satisfying Server.python_compare_text
           Server.passengers "age" 18%float Server.Less).
  - simpl. auto.
  - reflexivity.
Defined.

(** [filter_unrecognized] on the comparator "bogus". *)
Lemma filter_unrecognized_witness :
  Server.filter Server.python_compare_text "fare" 10%float "bogus"
    (Some Server.passengers)
    = (Return {| Server.success := false;
                 Server.info :=
                   Server.error_message
                     ("Unrecognized value for `by`: "
                      ++ String dquote "bogus" ++ String dquote ".") |},
       Some Server.passengers).
Proof.
  apply (filter_unrecognized Server.python_compare_text
           Server.passengers "fare" 10%float "bogus").
  intros [c Hc]. destruct c; discriminate Hc.
Defined.

(** C5, as stated, fails: [remove_outliers] on the names returns no result
    and no row count; the quantile raises [TypeError] and the frame is as
    before. *)
Lemma remove_outliers_on_names_returns_nothing :
  In "name" (Server.columns Server.named)
  /\ ~ returns (fst (Server.remove_outliers Server.python_compare_text
                       Server.series_quantile "name" (Some Server.named)))
  /\ snd (Server.remove_outliers Server.python_compare_text
            Server.series_quantile "name" (Some Server.named))
     = Some Server.named.
Proof.
  split; [simpl; auto|]. split; [|reflexivity].
  intros [a H]. discriminate H.
Qed.

(** [remove_outliers_keeps_interval] on the fares, with the quartiles 8.5
    and 71.5: the interval is [[-86, 166]]. *)
Lemma remove_outliers_keeps_interval_witness :
  let inside r :=
    Server.within (-86)%float 166%float
      (Server.number (Server.cell Server.passengers "fare" r)) in
  exists d',
    Server.remove_outliers Server.python_compare_text Server.series_quantile
      "fare" (Some Server.passengers)
      = (Return {| Server.success := true;
                   Server.info := Server.data_size (length (Server.rows d')) |},
         Some d')
    /\ Server.columns d' = Server.columns Server.passengers
    /\ Server.rows d' = List.filter inside (Server.rows Server.passengers)
    /\ (forall r, In r (Server.rows d') <->
                  In r (Server.rows Server.passengers) /\ inside r = true).
Proof.
  apply (remove_outliers_keeps_interval Server.python_compare_text
           Server.series_quantile Server.passengers "fare" 8.5%float 71.5%float).
  - simpl. auto.
  - reflexivity.
  - reflexivity.
  - reflexivity.
Defined.


(** Twice on the ages: the second application keeps the two minors. *)
Example filter_minors_twice :
  Server.filter Server.python_compare_text "age" 18%float "less"
    (snd (Server.filter Server.python_compare_text "age" 18%float "less"
            (Some Server.passengers)))
  = Server.filter Server.python_compare_text "age" 18%float "less"
      (Some Server.passengers).
Proof. reflexivity. Qed.

(** ** The further properties on concrete frames *)

(** [missing_column_raises] on a column the passengers do not have. *)
Lemma missing_column_raises_witness :
  Server.describe_column Server.no_description "cabin" (Some Server.passengers)
    = (Raise (KeyError "cabin"), Some Server.passengers)
  /\ Server.get_value_counts Server.no_counts "cabin" (Some Server.passengers)
    = (Raise (KeyError "cabin"), Some Server.passengers)
  /\ Server.filter Server.python_compare_text "cabin" 3%float "greater"
       (Some Server.passengers)
    = (Raise (KeyError "cabin"), Some Server.passengers)
  /\ Server.remove_outliers Server.python_compare_text Server.series_quantile
       "cabin" (Some Server.passengers)
    = (Raise (KeyError "cabin"), Some Server.passengers)
  /\ Server.compute_mean Server.no_statistic "cabin" (Some Server.passengers)
    = (Raise (KeyError "cabin"), Some Server.passengers)
  /\ Server.compute_standard_deviation Server.no_statistic "cabin"
       (Some Server.passengers)
    = (Raise (KeyError "cabin"), Some Server.passengers).
Proof.
  apply (missing_column_raises Server.python_compare_text Server.series_quantile
           Server.no_description Server.no_counts
           Server.no_statistic Server.no_statistic
           Server.passengers "cabin" 3%float Server.Greater).
  simpl. intros [H|[H|[]]]; discriminate H.
Defined.

(** [filters_commute] on the passengers under 30 who paid over 10. *)
Lemma filters_commute_witness :
  snd (Server.filter Server.python_compare_text "fare" 10%float "greater"
         (snd (Server.filter Server.python_compare_text "age" 30%float "less"
                 (Some Server.passengers))))
  = snd (Server.filter Server.python_compare_text "age" 30%float "less"
           (snd (Server.filter Server.python_compare_text "fare" 10%float "greater"
                   (Some Server.passengers)))).
Proof.
  apply (filters_commute Server.python_compare_text Server.passengers
           "age" 30%float Server.Less "fare" 10%float Server.Greater);
    try reflexivity; simpl; auto.
Defined.

(** [filter_by_nan_keeps_nothing] on the fares. *)
Lemma filter_by_nan_keeps_nothing_witness :
  Server.filter Server.python_compare_text "fare" nan "less/equal"
    (Some Server.passengers)
  = (Return {| Server.success := true; Server.info := Server.data_size 0 |},
     Some {| Server.columns := ["age"; "fare"]; Server.rows := [] |}).
Proof.
  apply (filter_by_nan_keeps_nothing Server.python_compare_text
           Server.passengers "fare" nan Server.LessEqual).
  - simpl. auto.
  - reflexivity.
  - reflexivity.
Defined.

(** [rows_without_value_dropped] on the ages, one of which is missing. *)
Lemma rows_without_value_dropped_witness :
  (forall t d',
     Server.filter Server.python_compare_text "age" 4%float "greater/equal"
       (Some Server.passengers) = (Return t, Some d') ->
     Forall (fun r => PrimFloat.is_nan
                        (Server.number (Server.cell Server.passengers "age" r))
                      = false)
            (Server.rows d'))
  /\ (forall t d',
        Server.remove_outliers Server.python_compare_text Server.series_quantile
          "age" (Some Server.passengers) = (Return t, Some d') ->
        Forall (fun r => PrimFloat.is_nan
                           (Server.number (Server.cell Server.passengers "age" r))
                         = false)
               (Server.rows d')).
Proof.
  apply (rows_without_value_dropped Server.python_compare_text
           Server.series_quantile Server.passengers "age" 4%float
           Server.GreaterEqual).
  - simpl. auto.
  - reflexivity.
Defined.

(** [less_equal_size_is_sum] on the ages against 17: 1 + 1 = 2. *)
Lemma less_equal_size_is_sum_witness :
  exists n_less n_equal,
    fst (Server.filter Server.python_compare_text "age" 17%float "less"
           (Some Server.passengers))
      = Return {| Server.success := true; Server.info := Server.data_size n_less |}
    /\ fst (Server.filter Server.python_compare_text "age" 17%float "equal"
              (Some Server.passengers))
      = Return {| Server.success := true; Server.info := Server.data_size n_equal |}
    /\ fst (Server.filter Server.python_compare_text "age" 17%float "less/equal"
              (Some Server.passengers))
      = Return {| Server.success := true;
                  Server.info := Server.data_size (n_less + n_equal) |}.
Proof.
  apply (less_equal_size_is_sum Server.python_compare_text
           Server.passengers "age" 17%float).
  - simpl. auto.
  - reflexivity.
Defined.

(** [less_then_greater_equal_empty] on the ages against 18. *)
Lemma less_then_greater_equal_empty_witness :
  Server.filter Server.python_compare_text "age" 18%float "greater/equal"
    (snd (Server.filter Server.python_compare_text "age" 18%float "less"
            (Some Server.passengers)))
  = (Return {| Server.success := true; Server.info := Server.data_size 0 |},
     Some {| Server.columns := ["age"; "fare"]; Server.rows := [] |}).
Proof.
  apply (less_then_greater_equal_empty Server.python_compare_text
           Server.passengers "age" 18%float).
  - simpl. auto.
  - reflexivity.
Defined.

(** [less_and_greater_equal_cover] on the ages against 18: the four known
    ages split into two and two. *)
Lemma less_and_greater_equal_cover_witness :
  exists n_less n_greater_equal,
    fst (Server.filter Server.python_compare_text "age" 18%float "less"
           (Some Server.passengers))
      = Return {| Server.success := true; Server.info := Server.data_size n_less |}
    /\ fst (Server.filter Server.python_compare_text "age" 18%float "greater/equal"
              (Some Server.passengers))
      = Return {| Server.success := true;
                  Server.info := Server.data_size n_greater_equal |}
    /\ n_less + n_greater_equal = 4.
Proof.
  apply (less_and_greater_equal_cover Server.python_compare_text
           Server.passengers "age" 18%float).
  - simpl. auto.
  - reflexivity.
  - reflexivity.
Defined.

(** [remove_outliers_nan_quartile] on a column without any value. *)
Lemma remove_outliers_nan_quartile_witness :
  Server.remove_outliers Server.python_compare_text Server.series_quantile "age"
    (Some Server.unknown_ages)
  = (Return {| Server.success := true; Server.info := Server.data_size 0 |},
     Some {| Server.columns := ["age"; "fare"]; Server.rows := [] |}).
Proof.
  apply (remove_outliers_nan_quartile Server.python_compare_text
           Server.series_quantile Server.unknown_ages "age" nan nan).
  - simpl. auto.
  - reflexivity.
  - reflexivity.
  - reflexivity.
  - left. reflexivity.
Defined.

(** ** The conversation loop *)

Section ClientProperties.

Context {W : Client.Services}.



(** More rounds do not change a run that has returned. *)
Lemma while_true_more_fuel fuel :
  forall st st' k,
    Client.while_true fuel st = Client.Done st' ->
    Client.while_true (fuel + k) st = Client.Done st'.
Proof.
  induction fuel as [|fuel IH]; intros st st' k H; simpl in *; [discriminate|].
  destruct (Client.finish_reason (Client.response st) =? "stop"); [exact H|].
  destruct (Client.finish_reason (Client.response st) =? "tool_calls").
  - destruct (Client.for_tool_calls _ st) as [st1|e]; [now apply IH | discriminate].
  - now apply IH.
Qed.

Lemma process_query_more_fuel fuel k query s r :
  Client.process_query fuel query s = Client.Done r ->
  Client.process_query (fuel + k) query s = Client.Done r.
Proof.
  unfold Client.process_query. intros H.
  destruct (Client.while_true fuel (Client.initial query s)) as [st|e|st] eqn:Ew;
    try discriminate.
  now rewrite (while_true_more_fuel _ _ _ k Ew).
Qed.

(** A response that says neither stop nor tool calls is looked at again and
    again: each round prints a line and changes nothing else. *)
Lemma while_true_spins fuel :
  forall st,
    Client.finish_reason (Client.response st) <> "stop" ->
    Client.finish_reason (Client.response st) <> "tool_calls" ->
    exists st',
      Client.while_true fuel st = Client.Running st'
      /\ Client.response st' = Client.response st
      /\ Client.messages st' = Client.messages st
      /\ Client.model_calls st' = Client.model_calls st
      /\ length (Client.printed st') = length (Client.printed st) + fuel.
Proof.
  induction fuel as [|fuel IH]; intros st Hs Ht; simpl.
  - exists st. repeat split. lia.
  - destruct (String.eqb_spec (Client.finish_reason (Client.response st)) "stop");
      [contradiction|].
    destruct (String.eqb_spec (Client.finish_reason (Client.response st)) "tool_calls");
      [contradiction|].
    destruct (IH (Client.print_finish st) Hs Ht) as (st' & Hr & H1 & H2 & H3 & H4).
    exists st'. repeat split; try assumption.
    rewrite H4. cbn. rewrite length_app. simpl. lia.
Qed.


(** Run the loop as far as the next call of a service, leaving the lines
    of the transcript as they are written. *)
Ltac run_loop := cbn -[Client.calling Client.tool_response String.concat].

(** C6, as amended: when the model asks for one tool call on the query
    and says stop on the history that follows, and the arguments parse and
    the tool returns, [process_query] returns (two rounds are enough) after
    exactly two model calls and exactly one tool invocation; the second
    model call is made on the history that already holds the two records of
    the call, and the final history is the query, the assistant record that
    describes the call, and a record of role "user" (the loop has no role
    of its own for tool results) with the payload, in this order. *)
Theorem one_tool_call_then_stop fuel query s tc tool_args p s' :
  let history :=
    [ {| Client.role := "user"; Client.body := Client.Text query |};
      {| Client.role := "assistant";
         Client.body := Client.Text (Client.calling (Client.name tc) tool_args) |};
      {| Client.role := "user"; Client.body := Client.Blocks p |} ] in
  let first := Client.create [ {| Client.role := "user"; Client.body := Client.Text query |} ] in
  Client.finish_reason first = "tool_calls" ->
  Client.tool_calls first = [tc] ->
  Client.json_loads (Client.arguments tc) = Return tool_args ->
  Client.call_tool (Client.name tc) tool_args s = (Return p, s') ->
  Client.finish_reason (Client.create history) = "stop" ->
  2 <= fuel ->
  exists text st,
    Client.process_query fuel query s = Client.Done (text, st)
    /\ Client.model_calls st
       = [ [ {| Client.role := "user"; Client.body := Client.Text query |} ]; history ]
    /\ Client.invocations st = [(Client.name tc, tool_args, p)]
    /\ Client.messages st = history
    /\ Client.server st = s'.
Proof.
  intros history first H1 Hc Hj Ht H2 Hfuel.
  destruct fuel as [|[|fuel]]; try lia.
  subst first history.
  unfold Client.process_query, Client.initial. run_loop.
  rewrite H1. run_loop.
  rewrite Hc. run_loop.
  rewrite Hj, Ht. run_loop.
  unfold Client.folded. rewrite H2. run_loop.
  eexists. eexists. split; [reflexivity|].
  repeat split.
Qed.

End ClientProperties.

(** ** The loop on concrete services *)

(** Two tool calls in one response: the model is called after each of
    them, three times in all, and the answer has five lines. *)
Example two_calls_three_model_calls :
  exists text st,
    Client.process_query (W := Client.echo Client.two_call_model)
      2 "How many columns?" 0 = Client.Done (text, st)
    /\ length (Client.model_calls st) = 3
    /\ map (fun i => fst (fst i)) (Client.invocations st)
       = ["load_data"; "get_column_names"]
    /\ length (Client.final_text st) = 5.
Proof. eexists. eexists. split; [reflexivity|]. repeat split. Qed.

(** C3 on the code: a first response cut at [max_tokens] has the finish
    reason "length"; however many rounds the loop is given, it has made one
    model call, printed one line a round, and not returned. *)
Theorem truncated_answer_never_returns (fuel : nat) :
  exists st,
    Client.process_query (W := Client.echo Client.truncated_model)
      fuel "How many rows?" 0 = Client.Running st
    /\ length (Client.model_calls st) = 1
    /\ length (Client.printed st) = fuel.
Proof.
  destruct (while_true_spins (W := Client.echo Client.truncated_model) fuel
              (Client.initial (W := Client.echo Client.truncated_model)
                 "How many rows?" 0))
    as (st & Hr & _ & _ & Hm & Hp); try (cbn; discriminate).
  exists st. unfold Client.process_query. rewrite Hr.
  split; [reflexivity|]. rewrite Hm, Hp. split; reflexivity.
Qed.

(** C6, as stated, fails: after one tool call and a stop, no record of the
    history carries a tool-result role; the payload sits in a record of
    role "user". *)
Lemma one_tool_call_no_tool_result_record :
  exists text st,
    Client.process_query (W := Client.echo Client.one_call_model)
      2 "How many rows?" 0 = Client.Done (text, st)
    /\ ~ Client.call_then_tool_result (W := Client.echo Client.one_call_model)
           (Client.messages st)
           "load_data" "{'file_name': 'titanic'}" "called load_data".
Proof.
  eexists. eexists. split; [reflexivity|].
  intros (before & m1 & m2 & after & Hh & H1 & _ & [Hu _] & _).
  cbn in Hh.
  destruct before as [|b0 [|b1 [|b2 before]]]; cbn in Hh.
  - injection Hh as <- _ _. discriminate H1.
  - injection Hh as _ _ <- _. now apply Hu.
  - discriminate Hh.
  - destruct before; discriminate Hh.
Qed.

(** [one_tool_call_then_stop] on the model that loads the table and then
    answers. *)
Lemma one_tool_call_then_stop_witness :
  let query := {| Client.role := "user"; Client.body := Client.Text "How many rows?" |} in
  let history :=
    [ query;
      {| Client.role := "assistant";
         Client.body :=
           Client.Text "[Calling tool load_data with args {'file_name': 'titanic'}]" |};
      {| Client.role := "user"; Client.body := Client.Blocks "called load_data" |} ] in
  exists text st,
    Client.process_query (W := Client.echo Client.one_call_model)
      2 "How many rows?" 0 = Client.Done (text, st)
    /\ Client.model_calls st = [[query]; history]
    /\ Client.invocations st
       = [("load_data", "{'file_name': 'titanic'}", "called load_data")]
    /\ Client.messages st = history
    /\ Client.server st = 1.
Proof.
  apply (one_tool_call_then_stop (W := Client.echo Client.one_call_model)
           2 "How many rows?" 0 Client.load_titanic
           "{'file_name': 'titanic'}" "called load_data" 1);
    reflexivity.
Defined.


(** * Further properties of the conversation loop *)

Section ClientFurther.

Context {W : Client.Services}.

Lemma history_of_snoc query invs tool_name tool_args p :
  Client.history_of query (invs ++ [(tool_name, tool_args, p)])
  = (Client.history_of query invs ++ Client.folded tool_name tool_args p)%list.
Proof.
  unfold Client.history_of. rewrite flat_map_app. reflexivity.
Qed.

Lemma replays_snoc s invs s1 tool_name tool_args p s2 :
  Client.replays s invs s1 ->
  Client.call_tool tool_name tool_args s1 = (Return p, s2) ->
  Client.replays s (invs ++ [(tool_name, tool_args, p)]) s2.
Proof.
  revert s. induction invs as [|[[n a] q] invs IH]; simpl; intros s H Hc.
  - subst s1. now exists s2.
  - destruct H as (s' & Hs & Hr). exists s'. split; [exact Hs | now apply IH].
Qed.

Lemma model_calls_snoc query (invs : list (string * Client.args * Client.payload)) i :
  map (fun k => Client.history_of query (firstn k (invs ++ [i])))
      (seq 0 (S (length (invs ++ [i]))))
  = (map (fun k => Client.history_of query (firstn k invs))
         (seq 0 (S (length invs)))
     ++ [Client.history_of query (invs ++ [i])])%list.
Proof.
  rewrite length_app. simpl length.
  replace (length invs + 1) with (S (length invs)) by lia.
  rewrite (seq_S (S (length invs)) 0), map_app. f_equal.
  - apply map_ext_in. intros k Hk. apply in_seq in Hk.
    rewrite firstn_app.
    replace (k - length invs) with 0 by lia.
    simpl. now rewrite app_nil_r.
  - cbn [map Nat.add]. rewrite firstn_all2; [reflexivity|].
    rewrite length_app. simpl. lia.
Qed.

Lemma initial_consistent query s :
  Client.consistent query s (Client.initial query s).
Proof. repeat split. Qed.

Lemma for_tool_calls_consistent query s calls :
  forall st st',
    Client.for_tool_calls calls st = Return st' ->
    Client.consistent query s st -> Client.consistent query s st'.
Proof.
  induction calls as [|tc calls IH]; intros st st' H Hc; simpl in H.
  - now injection H as <-.
  - destruct (Client.json_loads (Client.arguments tc)) as [a|e]; [|discriminate].
    destruct (Client.call_tool (Client.name tc) a (Client.server st))
      as [[p|e] s'] eqn:Ec; [|discriminate].
    apply IH in H; [exact H|].
    destruct Hc as (Hm & Hr & Hl & Hs).
    unfold Client.consistent.
    cbn [Client.messages Client.invocations Client.response Client.model_calls
         Client.server].
    rewrite history_of_snoc, model_calls_snoc, history_of_snoc, <- Hm, <- Hl.
    repeat split. now apply (replays_snoc _ _ _ _ _ _ _ Hs).
Qed.

Lemma for_tool_calls_printed calls :
  forall st st',
    Client.for_tool_calls calls st = Return st' ->
    Client.printed st' = Client.printed st.
Proof.
  induction calls as [|tc calls IH]; intros st st' H; simpl in H.
  - now injection H as <-.
  - destruct (Client.json_loads (Client.arguments tc)) as [a|e]; [|discriminate].
    destruct (Client.call_tool (Client.name tc) a (Client.server st))
      as [[p|e] s'] eqn:Ec; [|discriminate].
    now apply IH in H.
Qed.

(** The logs stay consistent for as long as the loop runs and when it is
    left. *)
Lemma while_true_consistent query s fuel :
  forall st st',
    Client.while_true fuel st = Client.Done st'
    \/ Client.while_true fuel st = Client.Running st' ->
    Client.consistent query s st -> Client.consistent query s st'.
Proof.
  induction fuel as [|fuel IH]; intros st st' H Hc; simpl in H.
  - destruct H as [H|H]; [discriminate | now injection H as <-].
  - destruct (Client.finish_reason (Client.response st) =? "stop").
    + destruct H as [H|H]; [injection H as <- | discriminate]. exact Hc.
    + destruct (Client.finish_reason (Client.response st) =? "tool_calls").
      * destruct (Client.for_tool_calls _ st) as [st1|e] eqn:Ef.
        -- apply (IH _ _ H). now apply (for_tool_calls_consistent _ _ _ _ _ Ef).
        -- destruct H; discriminate.
      * apply (IH _ _ H). exact Hc.
Qed.

Lemma process_query_consistent fuel query s text st :
  Client.process_query fuel query s = Client.Done (text, st)
  \/ Client.process_query fuel query s = Client.Running st ->
  Client.consistent query s st.
Proof.
  unfold Client.process_query. intros H.
  apply (while_true_consistent query s fuel (Client.initial query s));
    [|apply initial_consistent].
  destruct (Client.while_true fuel (Client.initial query s)) as [st'|e|st'];
    destruct H as [H|H]; try discriminate.
  - injection H as _ <-. now left.
  - injection H as <-. now right.
Qed.

Lemma history_of_length query (invs : list (string * Client.args * Client.payload)) :
  length (Client.history_of query invs) = 1 + 2 * length invs.
Proof.
  unfold Client.history_of. simpl. f_equal.
  induction invs as [|[[n a] p] invs IH]; simpl; [reflexivity|].
  rewrite IH. lia.
Qed.

Lemma history_of_roles query (invs : list (string * Client.args * Client.payload)) :
  Forall (fun m => Client.role m = "user" \/ Client.role m = "assistant")
         (Client.history_of query invs).
Proof.
  unfold Client.history_of. constructor; [now left|].
  induction invs as [|[[n a] p] invs IH]; simpl; [constructor|].
  constructor; [now right|]. constructor; [now left | exact IH].
Qed.

(** X12: when the model's first response says stop, [process_query]
    returns its content after that one model call and no tool invocation;
    the history is the query alone and the server is untouched. *)
Theorem immediate_stop fuel query s :
  let asked := [ {| Client.role := "user"; Client.body := Client.Text query |} ] in
  Client.finish_reason (Client.create asked) = "stop" ->
  1 <= fuel ->
  exists st,
    Client.process_query fuel query s
      = Client.Done (Client.message_content (Client.create asked), st)
    /\ Client.model_calls st = [asked]
    /\ Client.invocations st = []
    /\ Client.messages st = asked
    /\ Client.server st = s.
Proof.
  intros asked H Hf. destruct fuel as [|fuel]; [lia|].
  exists (Client.append_final (Client.initial query s)).
  split; [|repeat split].
  unfold Client.process_query.
  cbn [Client.while_true].
  replace (Client.finish_reason (Client.response (Client.initial query s)))
    with "stop" by (symmetry; exact H).
  reflexivity.
Qed.

(** X13: while [process_query] runs and when it returns, the history is the
    query followed, for each tool invocation in order, by the assistant
    record of the call and the user record of its payload: nothing is
    removed or rewritten, there are [1 + 2 n] records after [n]
    invocations, and every role is "user" or "assistant". *)
Theorem history_is_query_and_records fuel query s text st :
  Client.process_query fuel query s = Client.Done (text, st)
  \/ Client.process_query fuel query s = Client.Running st ->
  Client.messages st
    = {| Client.role := "user"; Client.body := Client.Text query |}
      :: flat_map (fun i => let '(tool_name, tool_args, p) := i in
                            [ {| Client.role := "assistant";
                                 Client.body :=
                                   Client.Text (Client.calling tool_name tool_args) |};
                              {| Client.role := "user"; Client.body := Client.Blocks p |} ])
                  (Client.invocations st)
  /\ length (Client.messages st) = 1 + 2 * length (Client.invocations st)
  /\ Forall (fun m => Client.role m = "user" \/ Client.role m = "assistant")
            (Client.messages st).
Proof.
  intros H. destruct (process_query_consistent _ _ _ _ _ H) as (Hm & _).
  rewrite Hm. split; [reflexivity|].
  split; [apply history_of_length | apply history_of_roles].
Qed.

(** X14: while [process_query] runs and when it returns, the model has been
    called once on the query and once more after every tool invocation,
    the call after the [k]-th invocation being made on the query and the
    records of the first [k] invocations; the response the loop holds is
    the model's answer to the whole history. *)
Theorem model_called_after_every_invocation fuel query s text st :
  Client.process_query fuel query s = Client.Done (text, st)
  \/ Client.process_query fuel query s = Client.Running st ->
  Client.model_calls st
    = map (fun k => Client.history_of query (firstn k (Client.invocations st)))
          (seq 0 (S (length (Client.invocations st))))
  /\ length (Client.model_calls st) = 1 + length (Client.invocations st)
  /\ Client.response st = Client.create (Client.messages st).
Proof.
  intros H. destruct (process_query_consistent _ _ _ _ _ H) as (_ & Hr & Hl & _).
  split; [exact Hl|]. split; [|exact Hr].
  rewrite Hl, length_map, length_seq. reflexivity.
Qed.

(** X15: while [process_query] runs and when it returns, the tools have
    been invoked one after the other, each on the server as the one before
    left it, giving the payloads logged; the server is where the last of
    them left it. *)
Theorem invocations_run_in_sequence fuel query s text st :
  Client.process_query fuel query s = Client.Done (text, st)
  \/ Client.process_query fuel query s = Client.Running st ->
  Client.replays s (Client.invocations st) (Client.server st).
Proof.
  intros H. now destruct (process_query_consistent _ _ _ _ _ H) as (_ & _ & _ & Hs).
Qed.

Lemma while_true_done_printed fuel :
  forall st st',
    Client.while_true fuel st = Client.Done st' ->
    Client.printed st' = Client.printed st.
Proof.
  induction fuel as [|fuel IH]; intros st st' H; simpl in H; [discriminate|].
  destruct (String.eqb_spec (Client.finish_reason (Client.response st)) "stop")
    as [_|Hs].
  - now injection H as <-.
  - destruct (String.eqb_spec (Client.finish_reason (Client.response st)) "tool_calls")
      as [_|Ht].
    + destruct (Client.for_tool_calls _ st) as [st1|e] eqn:Ef; [|discriminate].
      rewrite (IH _ _ H). now apply (for_tool_calls_printed _ _ _ Ef).
    + destruct (while_true_spins fuel (Client.print_finish st) Hs Ht)
        as (st2 & Hr & _).
      rewrite Hr in H. discriminate.
Qed.

(** X16: when [process_query] returns, it has printed nothing: a run in
    which a finish reason other than "stop" and "tool_calls" was met (the
    only case that prints) has not returned. *)
Theorem returns_without_print fuel query s text st :
  Client.process_query fuel query s = Client.Done (text, st) ->
  Client.printed st = [].
Proof.
  unfold Client.process_query. intros H.
  destruct (Client.while_true fuel (Client.initial query s)) as [st'|e|st'] eqn:Ew;
    try discriminate.
  injection H as _ <-.
  now rewrite (while_true_done_printed _ _ _ Ew).
Qed.

Lemma while_true_no_calls fuel :
  forall st,
    Client.finish_reason (Client.response st) = "tool_calls" ->
    Client.tool_calls (Client.response st) = [] ->
    Client.while_true fuel st = Client.Running st.
Proof.
  induction fuel as [|fuel IH]; intros st Hf Hc; simpl; [reflexivity|].
  rewrite Hf, Hc. simpl. now apply IH.
Qed.

(** X17: a first response that says "tool_calls" and lists no call is
    looked at again and again: however many rounds the loop is given, it
    has not returned, and it has made one model call, no tool invocation
    and no print. *)
Theorem empty_tool_calls_never_return fuel query s :
  let first :=
    Client.create [ {| Client.role := "user"; Client.body := Client.Text query |} ] in
  Client.finish_reason first = "tool_calls" ->
  Client.tool_calls first = [] ->
  exists st,
    Client.process_query fuel query s = Client.Running st
    /\ length (Client.model_calls st) = 1
    /\ Client.invocations st = []
    /\ Client.printed st = [].
Proof.
  intros first Hf Hc. exists (Client.initial query s).
  unfold Client.process_query.
  rewrite while_true_no_calls; [repeat split | exact Hf | exact Hc].
Qed.

(** X18: when the [for] loop over the tool calls of a response comes to its
    end, it has invoked one tool for each call, in the order of the calls,
    under the name of the call and with the arguments its text parses to. *)
Theorem tool_calls_dispatched_in_order calls st st' :
  Client.for_tool_calls calls st = Return st' ->
  exists made,
    Client.invocations st' = (Client.invocations st ++ made)%list
    /\ map (fun i => fst (fst i)) made = map Client.name calls
    /\ Forall2 (fun tc i =>
                  Client.json_loads (Client.arguments tc) = Return (snd (fst i)))
               calls made.
Proof.
  revert st. induction calls as [|tc calls IH]; intros st H; simpl in H.
  - injection H as <-. exists []. rewrite app_nil_r. repeat split. constructor.
  - destruct (Client.json_loads (Client.arguments tc)) as [a|e] eqn:Ej; [|discriminate].
    destruct (Client.call_tool (Client.name tc) a (Client.server st))
      as [[p|e] s'] eqn:Ec; [|discriminate].
    apply IH in H. destruct H as (made & Hi & Hn & Hp).
    cbn [Client.invocations] in Hi.
    exists ((Client.name tc, a, p) :: made). split; [|split].
    + rewrite Hi, <- app_assoc. reflexivity.
    + simpl. now rewrite Hn.
    + constructor; [exact Ej | exact Hp].
Qed.

(** X19: when the text of the first tool call's arguments does not parse,
    or the invocation of that tool raises, the exception leaves
    [process_query]: no answer is returned. *)
Theorem failing_call_raises fuel query s tc rest e :
  let first :=
    Client.create [ {| Client.role := "user"; Client.body := Client.Text query |} ] in
  Client.finish_reason first = "tool_calls" ->
  Client.tool_calls first = tc :: rest ->
  Client.json_loads (Client.arguments tc) = Raise e
  \/ (exists tool_args,
        Client.json_loads (Client.arguments tc) = Return tool_args
        /\ fst (Client.call_tool (Client.name tc) tool_args s) = Raise e) ->
  1 <= fuel ->
  Client.process_query fuel query s = Client.Raised e.
Proof.
  intros first Hf Hc He Hfuel. destruct fuel as [|fuel]; [lia|].
  unfold Client.process_query, Client.initial.
  cbn [Client.while_true Client.response]. fold first. rewrite Hf, Hc.
  cbn [String.eqb Ascii.eqb Bool.eqb]. cbv iota.
  cbn [Client.for_tool_calls Client.server].
  destruct He as [He | (a & Hj & He)].
  - rewrite He. reflexivity.
  - rewrite Hj.
    destruct (Client.call_tool (Client.name tc) a s) as [[p|e'] s'];
      simpl in He; [discriminate|].
    injection He as ->. reflexivity.
Qed.

End ClientFurther.

(** ** Launching the server *)

(** X20: [connect_to_server] launches "python" on a script whose path ends
    with ".py" and "node" on one whose path ends with ".js", with the path
    as the only argument; the two cases exclude each other, and for any
    other path it raises [ValueError] before anything is opened. *)
Theorem server_parameters_by_extension server_script_path :
  match Client.server_parameters server_script_path with
  | Client.Launch params =>
      Client.command_args params = [server_script_path]
      /\ (Client.command params = "python"
          /\ endswith server_script_path ".py" = true
          /\ endswith server_script_path ".js" = false
          \/ Client.command params = "node"
             /\ endswith server_script_path ".js" = true
             /\ endswith server_script_path ".py" = false)
  | Client.ValueError msg =>
      msg = "Server script must be a .py or .js file"
      /\ endswith server_script_path ".py" = false
      /\ endswith server_script_path ".js" = false
  end.
Proof.
  unfold Client.server_parameters.
  destruct (endswith server_script_path ".py") eqn:Ep,
           (endswith server_script_path ".js") eqn:Ej; cbn [orb negb].
  - pose proof (endswith_same_length _ _ _ Ep Ej eq_refl) as E. discriminate E.
  - split; [reflexivity|]. left. now repeat split.
  - split; [reflexivity|]. right. now repeat split.
  - now repeat split.
Qed.

Example launch_python_server :
  Client.server_parameters "src/mcp_server.py"
  = Client.Launch {| Client.command := "python";
                     Client.command_args := ["src/mcp_server.py"] |}.
Proof. reflexivity. Qed.

Example launch_node_server :
  Client.server_parameters "build/index.js"
  = Client.Launch {| Client.command := "node";
                     Client.command_args := ["build/index.js"] |}.
Proof. reflexivity. Qed.

(** The test is on the end of the path and minds the case. *)
Example launch_refused :
  Client.server_parameters "server.py.txt"
  = Client.ValueError "Server script must be a .py or .js file"
  /\ Client.server_parameters "SERVER.PY"
     = Client.ValueError "Server script must be a .py or .js file".
Proof. split; reflexivity. Qed.

(** ** The further properties on concrete services *)

(** [immediate_stop] on a model that answers at once. *)
Lemma immediate_stop_witness :
  exists st,
    Client.process_query (W := Client.echo Client.stop_model) 1 "Hello?" 0
      = Client.Done ("Hello.", st)
    /\ Client.model_calls st
       = [[ {| Client.role := "user"; Client.body := Client.Text "Hello?" |} ]]
    /\ Client.invocations st = []
    /\ Client.messages st
       = [ {| Client.role := "user"; Client.body := Client.Text "Hello?" |} ]
    /\ Client.server st = 0.
Proof.
  apply (immediate_stop (W := Client.echo Client.stop_model) 1 "Hello?" 0).
  - reflexivity.
  - apply le_n.
Defined.

(** [history_is_query_and_records] on the run with two tool calls: five
    records. *)
Lemma history_is_query_and_records_witness :
  exists text st,
    Client.process_query (W := Client.echo Client.two_call_model)
      2 "How many columns?" 0 = Client.Done (text, st)
    /\ (Client.messages st
        = {| Client.role := "user"; Client.body := Client.Text "How many columns?" |}
          :: flat_map (fun i => let '(tool_name, tool_args, p) := i in
                                [ {| Client.role := "assistant";
                                     Client.body :=
                                       Client.Text (Client.calling tool_name tool_args) |};
                                  {| Client.role := "user";
                                     Client.body := Client.Blocks p |} ])
                      (Client.invocations st)
        /\ length (Client.messages st) = 1 + 2 * length (Client.invocations st)
        /\ Forall (fun m => Client.role m = "user" \/ Client.role m = "assistant")
                  (Client.messages st))
    /\ length (Client.messages st) = 5.
Proof.
  eexists. eexists. split; [reflexivity|]. split; [|reflexivity].
  eapply (history_is_query_and_records (W := Client.echo Client.two_call_model)
           2 "How many columns?" 0 _ _).
  left. reflexivity.
Defined.

(** [model_called_after_every_invocation] on the same run: three model
    calls. *)
Lemma model_called_after_every_invocation_witness :
  exists text st,
    Client.process_query (W := Client.echo Client.two_call_model)
      2 "How many columns?" 0 = Client.Done (text, st)
    /\ (Client.model_calls st
        = map (fun k => Client.history_of "How many columns?"
                          (firstn k (Client.invocations st)))
              (seq 0 (S (length (Client.invocations st))))
        /\ length (Client.model_calls st) = 1 + length (Client.invocations st)
        /\ Client.response st = Client.create (Client.messages st))
    /\ length (Client.model_calls st) = 3.
Proof.
  eexists. eexists. split; [reflexivity|]. split; [|reflexivity].
  eapply (model_called_after_every_invocation
           (W := Client.echo Client.two_call_model) 2 "How many columns?" 0 _ _).
  left. reflexivity.
Defined.

(** [invocations_run_in_sequence] on the same run: the server has counted
    two calls. *)
Lemma invocations_run_in_sequence_witness :
  exists text st,
    Client.process_query (W := Client.echo Client.two_call_model)
      2 "How many columns?" 0 = Client.Done (text, st)
    /\ Client.replays (W := Client.echo Client.two_call_model)
         0 (Client.invocations st) (Client.server st)
    /\ Client.server st = 2.
Proof.
  eexists. eexists. split; [reflexivity|]. split; [|reflexivity].
  eapply (invocations_run_in_sequence (W := Client.echo Client.two_call_model)
           2 "How many columns?" 0 _ _).
  left. reflexivity.
Defined.

(** [returns_without_print] on the same run. *)
Lemma returns_without_print_witness :
  exists text st,
    Client.process_query (W := Client.echo Client.two_call_model)
      2 "How many columns?" 0 = Client.Done (text, st)
    /\ Client.printed st = [].
Proof.
  eexists. eexists. split; [reflexivity|].
  eapply (returns_without_print (W := Client.echo Client.two_call_model)
           2 "How many columns?" 0 _ _).
  reflexivity.
Defined.

(** [empty_tool_calls_never_return] on a model that lists no call, after a
    thousand rounds. *)
Lemma empty_tool_calls_never_return_witness :
  exists st,
    Client.process_query (W := Client.echo Client.no_call_model)
      1000 "How many rows?" 0 = Client.Running st
    /\ length (Client.model_calls st) = 1
    /\ Client.invocations st = []
    /\ Client.printed st = [].
Proof.
  apply (empty_tool_calls_never_return (W := Client.echo Client.no_call_model)
           1000 "How many rows?" 0); reflexivity.
Defined.

(** [tool_calls_dispatched_in_order] on the two calls of the first
    response of [two_call_model]. *)
Lemma tool_calls_dispatched_in_order_witness :
  let calls :=
    [Client.load_titanic;
     {| Client.name := "get_column_names"; Client.arguments := "{}" |}] in
  exists st',
    Client.for_tool_calls (W := Client.echo Client.two_call_model) calls
      (Client.initial (W := Client.echo Client.two_call_model)
         "How many columns?" 0) = Return st'
    /\ exists made,
         Client.invocations st' = ([] ++ made)%list
         /\ map (fun i => fst (fst i)) made = ["load_data"; "get_column_names"]
         /\ Forall2 (fun tc i => Return (Client.arguments tc) = Return (snd (fst i)))
                    calls made.
Proof.
  intros calls. eexists. split; [reflexivity|].
  apply (tool_calls_dispatched_in_order (W := Client.echo Client.two_call_model)
           calls
           (Client.initial (W := Client.echo Client.two_call_model)
              "How many columns?" 0)).
  reflexivity.
Defined.

(** [failing_call_raises] on arguments that are no JSON object. *)
Lemma failing_call_raises_witness :
  Client.process_query (W := Client.strict Client.bad_json_model)
    1 "How many rows?" 0
  = Client.Raised (JSONDecodeError "titanic").
Proof.
  apply (failing_call_raises (W := Client.strict Client.bad_json_model)
           1 "How many rows?" 0
           {| Client.name := "load_data"; Client.arguments := "titanic" |} []).
  - reflexivity.
  - reflexivity.
  - left. reflexivity.
  - apply le_n.
Defined.

